(** * Travel-time matrix computer: result correction, place normalisation
    and the OSM extract cache

    A shallow embedding of
    [src/travel_time_matrix_computer/base_travel_time_matrix_computer.py]
    ([BaseTravelTimeMatrixComputer]).  The pandas operations the class
    uses are modelled on data frames whose records are finite maps from
    column names to cells; the geometry library is an interface (a type
    class); the file system and the external [osmium] tool are explicit
    state. *)

From Stdlib Require Import ZArith QArith Qround Qabs String List Lia.
From stdpp Require Import base option list gmap strings pretty.

Local Open Scope Z_scope.
Local Open Scope string_scope.

(** ** Cells and data frames *)

(** A cell of a data frame: an integer, a string, or the missing value
    (pandas' [NaN]). *)
Inductive value : Type :=
  | VInt (z : Z)
  | VStr (s : string)
  | VNaN.

#[global] Instance value_eq_dec : EqDecision value.
Proof. solve_decision. Defined.

(** Element-wise [==] and [!=] of two columns: [NaN] compares unequal to
    everything, itself included. *)
Definition value_eq (a b : value) : bool :=
  match a, b with
  | VNaN, _ | _, VNaN => false
  | _, _ => bool_decide (a = b)
  end.

Definition value_ne (a b : value) : bool := negb (value_eq a b).

(** [a + b] on cells; adding to a string is a [TypeError] ([None]). *)
Definition add_value (a b : value) : option value :=
  match a, b with
  | VInt x, VInt y => Some (VInt (x + y))
  | VInt _, VNaN | VNaN, VInt _ | VNaN, VNaN => Some VNaN
  | _, _ => None
  end.

(** [round(x)] on a cell: integers and [NaN] are fixed points. *)
Definition round_value (a : value) : option value :=
  match a with
  | VInt x => Some (VInt x)
  | VNaN => Some VNaN
  | VStr _ => None
  end.

(** A data frame: the column labels in order, and the rows in order, each
    with its index label and its record.  Column labels are unique (a
    record is a map); [None] results stand for the exception pandas
    raises. *)
Record DataFrame : Type := mkDF {
  columns : list string;
  rows : list (value * gmap string value)
}.

(** [for x in xs: s = body(x, s)], stopping at the first exception. *)
Fixpoint for_in {A S : Type} (xs : list A) (body : A → S → option S) (s : S)
    : option S :=
  match xs with
  | [] => Some s
  | x :: xs' => s' ← body x s; for_in xs' body s'
  end.

(** [df.set_index(k)]: column [k] leaves the columns and becomes the index. *)
Definition set_index (k : string) (df : DataFrame) : option DataFrame :=
  if decide (k ∈ columns df) then
    rs ← mapM (λ '(_, r), v ← r !! k; Some (v, delete k r)) (rows df);
    Some (mkDF (filter (λ c, c ≠ k) (columns df)) rs)
  else None.

(** The record of all-missing cells a left join gives a row without a
    partner. *)
Definition nan_record (cols : list string) : gmap string value :=
  list_to_map ((λ c, (c, VNaN)) <$> cols).

(** [left.join(right)]: a left join on the index labels.  Every left row is
    kept, in the left order, once per right row with the same label (in the
    right order), or once with missing cells when there is none.
    Overlapping column labels are a [ValueError]. *)
Definition join (left right : DataFrame) : option DataFrame :=
  if decide (Forall (λ c, c ∉ columns left) (columns right)) then
    Some (mkDF (columns left ++ columns right)
      ('(k, r) ← rows left;
       match filter (λ kr, kr.1 = k) (rows right) with
       | [] => [(k, r ∪ nan_record (columns right))]
       | ms => (λ kr, (k, r ∪ kr.2)) <$> ms
       end))
  else None.

(** [df.reset_index(names=k)]: the index becomes the first column, named
    [k]; the new index is [0, 1, 2, ...]. *)
Definition reset_index (k : string) (df : DataFrame) : option DataFrame :=
  if decide (k ∈ columns df) then None
  else Some (mkDF (k :: columns df)
              (imap (λ i '(lbl, r), (VInt (Z.of_nat i), <[k := lbl]> r)) (rows df))).

(** [df.loc[df.from_id != df.to_id, "travel_time"] += round(df["walking_time"])].
    The index is the fresh [0, 1, 2, ...] of [reset_index], so the two
    series align row by row.  The selection needs the column [travel_time]
    ([KeyError]), also when no row is selected. *)
Definition loc_ne_iadd_walking_time (df : DataFrame) : option DataFrame :=
  if decide ("travel_time" ∈ columns df) then
    rs ← mapM (λ '(lbl, r),
          f ← r !! "from_id"; t ← r !! "to_id";
          w ← r !! "walking_time"; w' ← round_value w;
          if value_ne f t then
            x ← r !! "travel_time"; s ← add_value x w';
            Some (lbl, <["travel_time" := s]> r)
          else Some (lbl, r)) (rows df);
    Some (mkDF (columns df) rs)
  else None.

(** [df[cols]]: the listed columns, in the listed order. *)
Definition getitem (cols : list string) (df : DataFrame) : option DataFrame :=
  if decide (Forall (λ c, c ∈ columns df) cols) then
    Some (mkDF cols
      ((λ '(lbl, r), (lbl, filter (λ kv, kv.1 ∈ cols) r)) <$> rows df))
  else None.

(** ** ResultCorrector *)

(** [add_access_times(self, travel_times)], with [self.access_walking_times]
    as first argument. *)
Definition add_access_times (access_walking_times travel_times : DataFrame)
    : option DataFrame :=
  let COLUMNS := columns travel_times in
  for_in ["from_id"; "to_id"] (λ which_end travel_times,
    travel_times ← set_index which_end travel_times;
    travel_times ← join travel_times access_walking_times;
    travel_times ← reset_index which_end travel_times;
    travel_times ← loc_ne_iadd_walking_time travel_times;
    getitem COLUMNS travel_times) travel_times.

(** [clean_same_same_o_d_pairs(self, travel_times)]:
    [travel_times.loc[from_id == to_id, "travel_time"] = 0].  When there is
    no [travel_time] column yet, [loc] creates it, missing in the other
    rows. *)
Definition clean_same_same_o_d_pairs (travel_times : DataFrame)
    : option DataFrame :=
  rs ← mapM (λ '(lbl, r),
        f ← r !! "from_id"; t ← r !! "to_id";
        if value_eq f t then Some (lbl, <["travel_time" := VInt 0]> r)
        else if decide ("travel_time" ∈ columns travel_times) then Some (lbl, r)
        else Some (lbl, <["travel_time" := VNaN]> r)) (rows travel_times);
  Some (mkDF (if decide ("travel_time" ∈ columns travel_times)
              then columns travel_times
              else columns travel_times ++ ["travel_time"]) rs).

(** ** Geometry interface

    The geometry primitives of shapely, geopandas and pyproj the class
    calls, as an interface.  Reference frames are named by their authority
    strings. *)
Class Geometry : Type := {
  Geom : Type;
  (** [g.geom_type] *)
  geom_type : Geom → string;
  (** reprojection from a source frame to a target frame *)
  to_crs : string → string → Geom → Geom;
  (** [a.within(b)] *)
  within : Geom → Geom → bool;
  (** [g.centroid] *)
  centroid : Geom → Geom;
  (** [g1.distance(g2)], in the units of the frame; an exact rational here,
      a floating-point number in the code *)
  distance : Geom → Geom → Q;
  (** the UTM frames [pyproj.database.query_utm_crs_info] finds for the
      bounds of a geometry *)
  query_utm_crs_info : Geom → list string;
  (** [hash(g)], given the state of the running interpreter (its hash
      secret, the addresses of its objects) *)
  py_hash : Z → Geom → Z;
  (** the GeoJSON text [to_file] writes for a geometry *)
  to_geojson : Geom → string
}.

(** The routing engine (r5py): a transport network is built from an OSM
    extract and GTFS data sets; [snap_to_network] gives the nearest network
    point within [radius], or nothing.  The network is taken as built: the
    engine refusing an extract that is missing or broken is outside this
    model, and a result of the setter below stands for the case that the
    engine accepts its files. *)
Class Routing `{Geometry} : Type := {
  TransportNetwork : Type;
  build_transport_network : string → list string → TransportNetwork;
  snap_to_network : TransportNetwork → Geom → Z → option Geom
}.

Definition WORKING_CRS : string := "EPSG:4326".
Definition EXTENT_BUFFER : Z := 2000.
(** [math.ceil(250.0 * math.sqrt(2) / 2)]: half of the diagonal of a grid
    cell of 250 m, rounded up. *)
Definition MAX_SNAP_DISTANCE_METRES : Z := 177.

(** A row of the origins/destinations frame, and the frame with its
    reference frame ([None]: a frame without one). *)
Record Place `{Geometry} : Type := mkPlace {
  id : value;
  geometry : Geom
}.

Record GeoDataFrame `{Geometry} : Type := mkGDF {
  crs : option string;
  places : list Place
}.

(** [gdf.to_crs(target)]; a frame without reference frame cannot be
    transformed ([ValueError]). *)
Definition gdf_to_crs `{Geometry} (target : string) (gdf : GeoDataFrame)
    : option GeoDataFrame :=
  src ← crs gdf;
  Some (mkGDF _ (Some target)
    ((λ p, mkPlace _ (id p) (to_crs src target (geometry p))) <$> places gdf)).

(** A [datetime.date]. *)
Record Date : Type := mkDate {
  year : N;
  month : N;
  day : N
}.

(** The state of a [BaseTravelTimeMatrixComputer]: the attributes that the
    methods below read or write.  ([cycling_speeds] is stored as it is
    given and read nowhere in the class.)  The last field is the private
    copy of the filtered input that the [origins_destinations] setter
    keeps. *)
Record Computer `{Geometry} : Type := mkComputer {
  date : Date;
  extent : Geom;
  gtfs_data_sets : list string;
  osm_extract_file : option string;
  access_walking_times : option DataFrame;
  _origins_destinations : option GeoDataFrame;
  __origins_destinations : option GeoDataFrame
}.

(** [_good_enough_crs]: the first UTM frame found for the extent, or web
    mercator when there is none ([IndexError]). *)
Definition _good_enough_crs `{Geometry} (self : Computer) : string :=
  match query_utm_crs_info (extent self) with
  | c :: _ => c
  | [] => "EPSG:3857"
  end.

(** [series.unique().tolist()]: the distinct values, in the order of their
    first appearance. *)
Fixpoint unique (l : list string) : list string :=
  match l with
  | [] => []
  | x :: l' => x :: filter (λ y, y ≠ x) (unique l')
  end.

(** [3.6 * 1000.0 / 60.0]: km/h to metres per minute. *)
Definition WALKING_SPEED : Q := (36 # 10) * 1000 / 60.

(** [(snapped_distance / WALKING_SPEED).fillna(0).apply(numpy.ceil).astype(int)]
    on one cell; [None] is the missing distance. *)
Definition walking_time_of (snapped_distance : option Q) : Z :=
  Qceiling (default 0%Q ((λ d, d / WALKING_SPEED)%Q <$> snapped_distance)).

(** The [origins_destinations] setter: reproject, keep the rows whose
    geometry is within the extent, remember them, replace the geometries by
    centroids unless all of them are points, snap, and derive the walking
    times.  The transport network is the one built from the extract and the
    GTFS data sets; without an extract the attribute is missing
    ([AttributeError]). *)
Definition set_origins_destinations `{Routing} (self : Computer)
    (value : GeoDataFrame) : option Computer :=
  value ← gdf_to_crs WORKING_CRS value;
  let value :=
    mkGDF _ (crs value)
      (filter (λ p, within (geometry p) (extent self) = true) (places value)) in
  let EQUIDISTANT_CRS := _good_enough_crs self in
  let remembered := value in
  let origins_destinations :=
    if decide (unique (geom_type ∘ geometry <$> places value) ≠ ["Point"]) then
      mkGDF _ (crs value)
        ((λ p, mkPlace _ (id p)
            (to_crs EQUIDISTANT_CRS WORKING_CRS
              (centroid (to_crs WORKING_CRS EQUIDISTANT_CRS (geometry p)))))
          <$> places value)
    else value in
  osm ← osm_extract_file self;
  let transport_network := build_transport_network osm (gtfs_data_sets self) in
  let snapped_geometry :=
    (λ p, snap_to_network transport_network (geometry p) MAX_SNAP_DISTANCE_METRES)
      <$> places origins_destinations in
  let snapped_distance :=
    zip_with (λ p (s : option Geom),
      (λ s, distance (to_crs WORKING_CRS EQUIDISTANT_CRS (geometry p))
                     (to_crs WORKING_CRS EQUIDISTANT_CRS s)) <$> s)
      (places origins_destinations) snapped_geometry in
  let walking_time := walking_time_of <$> snapped_distance in
  Some (mkComputer _ (date self) (extent self) (gtfs_data_sets self)
    (osm_extract_file self)
    (Some (mkDF ["walking_time"]
       (zip_with (λ p w, (id p, {[ "walking_time" := VInt w ]}))
          (places origins_destinations) walking_time)))
    (Some origins_destinations)
    (Some remembered)).

(** ** The OSM extract cache

    Files are a finite map from path strings to contents; every run of the
    external tool is recorded. *)
Record World : Type := mkWorld {
  fs : gmap string string;
  invocations : list (list string)
}.

(** What the class gets from its process and operating system: the fresh
    directory [tempfile.TemporaryDirectory] makes, the [osmium] executable (its
    exit status and its effect on the files, or [None] when it cannot be
    started), and the state of the interpreter that [hash] depends on. *)
Class System : Type := {
  mkdtemp : gmap string string → string;
  osmium : list string → gmap string string → option (Z * gmap string string);
  hash_state : Z
}.

Inductive exn : Type := OSError.

Inductive result (A : Type) : Type :=
  | Normal (a : A)
  | Raise (e : exn).
Arguments Normal {A} a.
Arguments Raise {A} e.

(** Computations on the world that return or raise. *)
Definition M (A : Type) : Type := World → result A * World.

#[global] Instance M_ret : MRet M := λ A a w, (Normal a, w).
#[global] Instance M_bind : MBind M := λ A B f m w,
  match m w with
  | (Normal a, w') => f a w'
  | (Raise e, w') => (Raise e, w')
  end.

(** A [pathlib] path to a file: its directory, and the stem and the last
    suffix of its name. *)
Record PurePath : Type := mkPath {
  parent : string;
  stem : string;
  suffix : string
}.

Definition path_str (p : PurePath) : string :=
  parent p +:+ "/" +:+ stem p +:+ suffix p.

(** [pathlib.Path(dir) / name] *)
Definition joinpath (dir name : string) : string := dir +:+ "/" +:+ name.

(** [path.exists()] *)
Definition path_exists (p : string) : M bool :=
  λ w, (Normal (bool_decide (is_Some (fs w !! p))), w).

(** [subprocess.run(args)]: the exit status is in the returned object; only
    a tool that cannot be started raises. *)
Definition subprocess_run `{System} (args : list string) : M Z :=
  λ w,
    match osmium args (fs w) with
    | Some (returncode, fs') => (Normal returncode, mkWorld fs' (invocations w ++ [args]))
    | None => (Raise OSError, mkWorld (fs w) (invocations w ++ [args]))
    end.

(** [geopandas.GeoDataFrame({"geometry": [g]}).to_file(path)] *)
Definition to_file `{Geometry} (g : Geom) (p : string) : M () :=
  λ w, (Normal (), mkWorld (<[p := to_geojson g]> (fs w)) (invocations w)).

(** [with tempfile.TemporaryDirectory() as d: body]: the directory and all
    below it are removed on every way out. *)
Definition with_TemporaryDirectory `{System} {A : Type} (body : string → M A)
    : M A :=
  λ w,
    let d := mkdtemp (fs w) in
    let '(r, w') := body d w in
    (r, mkWorld (filter (λ kv, String.prefix (d +:+ "/") kv.1 = false) (fs w'))
                (invocations w')).

(** [s.zfill(n)] *)
Fixpoint zeros (n : nat) : string :=
  match n with
  | O => ""
  | S n' => "0" +:+ zeros n'
  end.

Definition zfill (n : nat) (s : string) : string :=
  zeros (n - String.length s) +:+ s.

(** [f"{date:%Y-%m-%dT00:00:00Z}"] *)
Definition osm_snapshot_datetime_of (d : Date) : string :=
  zfill 4 (pretty (year d)) +:+ "-" +:+ zfill 2 (pretty (month d)) +:+ "-"
  +:+ zfill 2 (pretty (day d)) +:+ "T00:00:00Z".

(** The path of the final extract: beside the history file, named by its
    stem, the snapshot instant and [hash(self.extent)]. *)
Definition osm_extract_filename_of `{Geometry} `{System} (self : Computer)
    (osm_history_file : PurePath) : string :=
  joinpath (parent osm_history_file)
    (stem osm_history_file +:+ "_" +:+ osm_snapshot_datetime_of (date self)
     +:+ "_" +:+ pretty (py_hash hash_state (extent self)) +:+ ".osm.pbf").

(** The [osm_history_file] setter. *)
Definition set_osm_history_file `{Geometry} `{System} (self : Computer)
    (osm_history_file : PurePath) : M Computer :=
  osm_extract_filename ←
    with_TemporaryDirectory (λ temporary_directory,
      let osm_snapshot_datetime := osm_snapshot_datetime_of (date self) in
      let osm_snapshot_filename :=
        joinpath temporary_directory
          (stem osm_history_file +:+ "_" +:+ osm_snapshot_datetime +:+ ".osm.pbf") in
      let osm_extract_filename := osm_extract_filename_of self osm_history_file in
      have_extract ← path_exists osm_extract_filename;
      (if negb have_extract then
        have_snapshot ← path_exists osm_snapshot_filename;
        (if negb have_snapshot then
          _ ← subprocess_run
            [ "/usr/bin/osmium"; "time-filter";
              path_str osm_history_file; osm_snapshot_datetime;
              "--output"; osm_snapshot_filename;
              "--output-format"; "osm.pbf";
              "--overwrite"; "--no-progress" ];
          mret ()
        else mret ());;
        let extent_polygon := joinpath temporary_directory "extent.geojson" in
        to_file (extent self) extent_polygon;;
        _ ← subprocess_run
          [ "/usr/bin/osmium"; "extract";
            "--strategy"; "complete_ways";
            "--polygon"; extent_polygon;
            osm_snapshot_filename;
            "--output"; osm_extract_filename;
            "--output-format"; "osm.pbf";
            "--overwrite"; "--no-progress" ];
        mret ()
      else mret ());;
      mret osm_extract_filename);
  mret (mkComputer _ (date self) (extent self) (gtfs_data_sets self)
          (Some osm_extract_filename)
          (access_walking_times self) (_origins_destinations self)
          (__origins_destinations self)).

(** ** A flat world

    An instance of the geometry interface for examples: rational
    coordinates in one plane that every reference frame shares, so that
    reprojection changes nothing.  Polygons are axis-parallel rectangles
    [(x0, y0, x1, y1)]; the parts of a multipolygon do not touch. *)
Module Flat.

Definition Rect : Type := Q * Q * Q * Q.

Inductive geom : Type :=
  | Point (x y : Q)
  | MultiPoint (ps : list (Q * Q))
  | Polygon (r : Rect)
  | MultiPolygon (rs : list Rect).

Definition flat_geom_type (g : geom) : string :=
  match g with
  | Point _ _ => "Point"
  | MultiPoint _ => "MultiPoint"
  | Polygon _ => "Polygon"
  | MultiPolygon _ => "MultiPolygon"
  end.

(** The parts of a geometry as rectangles; a point is a rectangle without
    extension. *)
Definition parts (g : geom) : list Rect :=
  match g with
  | Point x y => [(x, y, x, y)]
  | MultiPoint ps => (λ p, (p.1, p.2, p.1, p.2)) <$> ps
  | Polygon r => [r]
  | MultiPolygon rs => rs
  end.

Definition areal (g : geom) : bool :=
  match g with
  | Polygon _ | MultiPolygon _ => true
  | _ => false
  end.

(** [a] lies in the closed rectangle [b]. *)
Definition rect_in_closed (a b : Rect) : bool :=
  let '(ax0, ay0, ax1, ay1) := a in
  let '(bx0, by0, bx1, by1) := b in
  Qle_bool bx0 ax0 && Qle_bool ax1 bx1 && Qle_bool by0 ay0 && Qle_bool ay1 by1.

Definition Qlt_bool (a b : Q) : bool := negb (Qle_bool b a).

(** The interiors of [a] and [b] meet; the interior of a point is the
    point. *)
Definition rect_interiors_meet (a b : Rect) : bool :=
  let '(ax0, ay0, ax1, ay1) := a in
  let '(bx0, by0, bx1, by1) := b in
  (if Qeq_bool ax0 ax1 then Qlt_bool bx0 ax0 && Qlt_bool ax0 bx1
   else Qlt_bool ax0 bx1 && Qlt_bool bx0 ax1)
  && (if Qeq_bool ay0 ay1 then Qlt_bool by0 ay0 && Qlt_bool ay0 by1
      else Qlt_bool ay0 by1 && Qlt_bool by0 ay1).

(** [a.within(b)] for a polygon or multipolygon [b]: no part of [a] leaves
    [b], and the interiors meet. *)
Definition flat_within (a b : geom) : bool :=
  areal b
  && forallb (λ ra, existsb (rect_in_closed ra) (parts b)) (parts a)
  && existsb (λ ra, existsb (rect_interiors_meet ra) (parts b)) (parts a).

Definition rect_area (r : Rect) : Q :=
  let '(x0, y0, x1, y1) := r in (x1 - x0) * (y1 - y0).

Definition Qsum (l : list Q) : Q := foldr Qplus 0%Q l.

(** The centroid: the mean of the points of a multipoint, the centre of
    a rectangle, the mean of the centres weighted by area for a
    multipolygon. *)
Definition flat_centroid (g : geom) : geom :=
  match g with
  | Point x y => Point x y
  | MultiPoint ps =>
      let n := inject_Z (Z.of_nat (length ps)) in
      Point (Qred (Qsum (fst <$> ps) / n)) (Qred (Qsum (snd <$> ps) / n))
  | Polygon (x0, y0, x1, y1) =>
      Point (Qred ((x0 + x1) / 2)) (Qred ((y0 + y1) / 2))
  | MultiPolygon rs =>
      let a := Qsum (rect_area <$> rs) in
      Point
        (Qred (Qsum ((λ r, rect_area r * ((r.1.1.1 + r.1.2) / 2))%Q <$> rs) / a))
        (Qred (Qsum ((λ r, rect_area r * ((r.1.1.2 + r.2) / 2))%Q <$> rs) / a))
  end.

(** The gap between the intervals [[a0, a1]] and [[b0, b1]]. *)
Definition gap (a0 a1 b0 b1 : Q) : Q :=
  if Qlt_bool a1 b0 then (b0 - a1)%Q
  else if Qlt_bool b1 a0 then (a0 - b1)%Q
  else 0%Q.

(** The square root, rounded down to a millionth. *)
Definition Qsqrt_down (q : Q) : Q :=
  Z.sqrt (Qfloor (q * 1000000000000)) # 1000000.

Definition rect_distance (a b : Rect) : Q :=
  let '(ax0, ay0, ax1, ay1) := a in
  let '(bx0, by0, bx1, by1) := b in
  let dx := gap ax0 ax1 bx0 bx1 in
  let dy := gap ay0 ay1 by0 by1 in
  Qsqrt_down (dx * dx + dy * dy).

Definition Qmin_list (l : list Q) : Q :=
  match l with
  | [] => 0%Q
  | q :: l' => foldr (λ a b, if Qle_bool a b then a else b) q l'
  end.

(** The least distance between a part of [a] and a part of [b]. *)
Definition flat_distance (a b : geom) : Q :=
  Qmin_list (ra ← parts a; rect_distance ra <$> parts b).

(** A hash of the coordinates, salted by the interpreter.  *)
Definition coordinates_sum (g : geom) : Z :=
  foldr Z.add 0
    ((λ r, let '(x0, y0, x1, y1) := r in
           Qnum x0 + Qnum y0 + Qnum x1 + Qnum y1) <$> parts g).

Definition flat_hash (salt : Z) (g : geom) : Z :=
  Z.lxor salt (coordinates_sum g).

Definition Q_text (q : Q) : string :=
  pretty (Qnum q) +:+ "/" +:+ pretty (Zpos (Qden q)).

Definition flat_geojson (g : geom) : string :=
  flat_geom_type g +:+ " " +:+
  String.concat " "
    ((λ r, let '(x0, y0, x1, y1) := r in
           Q_text x0 +:+ "," +:+ Q_text y0 +:+ "," +:+ Q_text x1 +:+ "," +:+ Q_text y1)
      <$> parts g).

#[global] Instance flat_geometry : Geometry := {|
  Geom := geom;
  geom_type := flat_geom_type;
  to_crs := λ _ _ g, g;
  within := flat_within;
  centroid := flat_centroid;
  distance := flat_distance;
  query_utm_crs_info := λ _, [];
  py_hash := flat_hash;
  to_geojson := flat_geojson
|}.

(** A network that is one road along the x axis. *)
#[global] Instance road : Routing := {|
  TransportNetwork := ();
  build_transport_network := λ _ _, ();
  snap_to_network := λ _ g radius,
    match g with
    | Point x y =>
        if Qle_bool (Qabs y) (inject_Z radius) then Some (Point x 0) else None
    | _ => None
    end
|}.

(** The argument that follows an option of the command line. *)
Fixpoint argument_of (opt : string) (args : list string) : option string :=
  match args with
  | a :: ((b :: _) as rest) =>
      if decide (a = opt) then Some b else argument_of opt rest
  | _ => None
  end.

(** An [osmium] that writes its output file and succeeds. *)
Definition osmium_ok (args : list string) (files : gmap string string)
    : option (Z * gmap string string) :=
  match argument_of "--output" args with
  | Some out => Some (0, <[out := "pbf"]> files)
  | None => Some (2, files)
  end.

(** An [osmium] that breaks off in the middle of its output and fails. *)
Definition osmium_broken (args : list string) (files : gmap string string)
    : option (Z * gmap string string) :=
  match argument_of "--output" args with
  | Some out => Some (1, <[out := "pb"]> files)
  | None => Some (2, files)
  end.

Definition system_with
    (tool : list string → gmap string string → option (Z * gmap string string))
    (salt : Z) : System := {|
  mkdtemp := λ _, "/tmp/tmpq7";
  osmium := tool;
  hash_state := salt
|}.

(** The tool with its exit status replaced. *)
Definition with_status (rc : Z)
    (tool : list string → gmap string string → option (Z * gmap string string))
    (args : list string) (files : gmap string string)
    : option (Z * gmap string string) :=
  (λ r, (rc, r.2)) <$> tool args files.

(** *** Example data *)

Definition two_squares : geom := MultiPolygon [(0, 0, 1, 1)%Q; (3, 0, 4, 1)%Q].

Definition square : geom := Polygon (0, 0, 4, 4)%Q.

Definition strip : geom := Polygon (0, -1000, 10, 1000)%Q.

Definition town : geom := Polygon (0, 0, 4, 4)%Q.

Definition computer_of (e : geom) : Computer :=
  mkComputer _ (mkDate 2023 6 15) e [] (Some "/data/town.osm.pbf") None None None.

(** Two stops of one station, one in each square. *)
Definition station : GeoDataFrame :=
  mkGDF _ (Some "EPSG:4326")
    [ mkPlace _ (VInt 1) (MultiPoint [(1 # 2, 1 # 2); (7 # 2, 1 # 2)]) ].

(** A block that reaches over the right edge of [square]. *)
Definition block : GeoDataFrame :=
  mkGDF _ (Some "EPSG:4326") [ mkPlace _ (VInt 7) (Polygon (2, 1, 5, 3)%Q) ].

Definition houses : GeoDataFrame :=
  mkGDF _ (Some "EPSG:4326")
    [ mkPlace _ (VStr "a") (Point 1 120);
      mkPlace _ (VStr "b") (Point 2 90);
      mkPlace _ (VStr "c") (Point 3 500) ].

(** What became of the places: identifier, kind of geometry, its parts,
    and whether it lies within the extent. *)
Definition kept_summary (self : Computer) (gdf : GeoDataFrame)
    : option (list (value * string * list Rect * bool)) :=
  self' ← set_origins_destinations self gdf;
  ods ← _origins_destinations self';
  Some ((λ p, (id p, geom_type (geometry p), parts (geometry p),
               within (geometry p) (extent self))) <$> places ods).

Definition planner : Computer :=
  mkComputer _ (mkDate 2023 6 15) town [] None None None None.

Definition history : PurePath := mkPath "/data" "town.osh" ".pbf".

Definition empty_disk : World := mkWorld ∅ [].

(** What a run left: whether it returned, the extract it recorded, the
    number of tool runs, and the content at a path. *)
Definition returned {A : Type} (r : result A) : bool :=
  match r with Normal _ => true | Raise _ => false end.

Definition recorded_extract (r : result Computer) : option string :=
  match r with Normal c => osm_extract_file c | Raise _ => None end.

Definition broken_run : result Computer * World :=
  @set_osm_history_file _ (system_with osmium_broken 0) planner history
    empty_disk.

Definition first_run : result Computer * World :=
  @set_osm_history_file _ (system_with osmium_ok 0) planner history
    empty_disk.

End Flat.

(** ** Notions for the statements *)

(** The cell of a record in a column, missing when the record has none. *)
Definition cell (c : string) (r : gmap string value) : value :=
  default VNaN (r !! c).

(** [AccessTime[i]]: the walking time the table has for [i], missing when
    [i] is not in the table. *)
Definition access_time (awt : DataFrame) (i : value) : value :=
  match filter (λ kr, kr.1 = i) (rows awt) with
  | [] => VNaN
  | kr :: _ => default VNaN (kr.2 !! "walking_time")
  end.

Definition is_number (v : value) : bool :=
  match v with VStr _ => false | _ => true end.

Definition is_int (v : value) : bool :=
  match v with VInt _ => true | _ => false end.

(** Every record has exactly the columns of its frame. *)
Definition frame_wf (df : DataFrame) : Prop :=
  Forall (λ lr, dom lr.2 =@{gset string} list_to_set (columns df)) (rows df).

(** Travel times as the routing engine returns them: the three columns
    are there, no column is called [walking_time], and the travel times are
    numbers or missing. *)
Definition travel_times_ok (tt : DataFrame) : Prop :=
  frame_wf tt
  ∧ "from_id" ∈ columns tt ∧ "to_id" ∈ columns tt ∧ "travel_time" ∈ columns tt
  ∧ ("walking_time" ∉ columns tt)
  ∧ Forall (λ lr, is_number (cell "travel_time" lr.2)) (rows tt).

(** An access-time table as the [origins_destinations] setter builds it,
    for places with unique identifiers: one integer column, one row per
    identifier. *)
Definition access_table_ok (awt : DataFrame) : Prop :=
  columns awt = ["walking_time"]
  ∧ frame_wf awt
  ∧ NoDup (rows awt).*1
  ∧ Forall (λ lr, is_int (cell "walking_time" lr.2)) (rows awt).

(** What one turn of the loop of [add_access_times] does to a record, for
    the end [k]. *)
Definition bump (awt : DataFrame) (k : string) (r : gmap string value)
    : gmap string value :=
  if value_ne (cell "from_id" r) (cell "to_id" r) then
    <["travel_time" :=
        default VNaN (add_value (cell "travel_time" r) (access_time awt (cell k r)))]> r
  else r.

(** The body of the loop of [add_access_times]. *)
Definition turn (awt : DataFrame) (COLUMNS : list string) (which_end : string)
    (travel_times : DataFrame) : option DataFrame :=
  travel_times ← set_index which_end travel_times;
  travel_times ← join travel_times awt;
  travel_times ← reset_index which_end travel_times;
  travel_times ← loc_ne_iadd_walking_time travel_times;
  getitem COLUMNS travel_times.

(** The travel time of the row at position [i] of a result. *)
Definition travel_time_at (o : option DataFrame) (i : nat) : option value :=
  df ← o; lr ← rows df !! i; lr.2 !! "travel_time".

(** The snap distance of a place, missing when there is no network point
    within the radius. *)
Definition snapped_distance_of `{Routing} (self : Computer) (osm : string)
    (p : Place) : option Q :=
  (λ s, distance (to_crs WORKING_CRS (_good_enough_crs self) (geometry p))
                 (to_crs WORKING_CRS (_good_enough_crs self) s))
    <$> snap_to_network (build_transport_network osm (gtfs_data_sets self))
          (geometry p) MAX_SNAP_DISTANCE_METRES.

(** The rows that pass the filter of the setter. *)
Definition kept_places `{Geometry} (self : Computer) (src : string)
    (value : GeoDataFrame) : list Place :=
  filter (λ p, within (geometry p) (extent self) = true)
    ((λ p, mkPlace _ (id p) (to_crs src WORKING_CRS (geometry p)))
       <$> places value).

(** The representative point the setter takes for a geometry that is not
    a point. *)
Definition centroid_of `{Geometry} (self : Computer) (p : Place) : Place :=
  mkPlace _ (id p)
    (to_crs (_good_enough_crs self) WORKING_CRS
       (centroid (to_crs WORKING_CRS (_good_enough_crs self) (geometry p)))).

(** The working set the setter is after: the kept rows, with centroids for
    their geometries unless all of them are points. *)
Definition representatives `{Geometry} (self : Computer) (src : string)
    (value : GeoDataFrame) : list Place :=
  if decide (unique (geom_type ∘ geometry <$> kept_places self src value)
             ≠ ["Point"])
  then centroid_of self <$> kept_places self src value
  else kept_places self src value.

(** The path of the snapshot and the command line of the second step. *)
Definition osm_snapshot_filename_of `{Geometry} (self : Computer)
    (osm_history_file : PurePath) (temporary_directory : string) : string :=
  joinpath temporary_directory
    (stem osm_history_file +:+ "_" +:+ osm_snapshot_datetime_of (date self)
     +:+ ".osm.pbf").

Definition extract_command `{Geometry} `{System} (self : Computer)
    (osm_history_file : PurePath) (temporary_directory : string) : list string :=
  [ "/usr/bin/osmium"; "extract";
    "--strategy"; "complete_ways";
    "--polygon"; joinpath temporary_directory "extent.geojson";
    osm_snapshot_filename_of self osm_history_file temporary_directory;
    "--output"; osm_extract_filename_of self osm_history_file;
    "--output-format"; "osm.pbf";
    "--overwrite"; "--no-progress" ].

(** *** Example frames *)

Definition example_access_times : DataFrame :=
  mkDF ["walking_time"]
    [ (VInt 1, {[ "walking_time" := VInt 5 ]});
      (VInt 2, {[ "walking_time" := VInt 7 ]}) ].

Definition example_record (f t x : Z) (mode : string) : gmap string value :=
  {[ "from_id" := VInt f; "to_id" := VInt t; "travel_time" := VInt x;
     "mode" := VStr mode ]}.

Definition example_travel_times : DataFrame :=
  mkDF ["from_id"; "to_id"; "travel_time"; "mode"]
    [ (VStr "a", example_record 1 2 10 "walk");
      (VStr "b", example_record 1 1 3 "walk");
      (VStr "c", example_record 2 3 4 "bus") ].

(** A table in which the identifier 1 occurs twice. *)
Definition example_duplicate_access_times : DataFrame :=
  mkDF ["walking_time"]
    [ (VInt 1, {[ "walking_time" := VInt 5 ]});
      (VInt 1, {[ "walking_time" := VInt 6 ]}) ].

(** ** The constructor *)

(** The two further geometry primitives the constructor calls:
    [g.buffer(distance)] and the union of a series of geometries. *)
Class Buffering `{Geometry} : Type := {
  buffer : Geom → Z → Geom;
  unary_union : list Geom → Geom
}.

(** [_good_enough_crs] in an object that may have no extent yet: reading
    the missing attribute is an [AttributeError], which the property
    answers with web mercator. *)
Definition _good_enough_crs_of `{Geometry} (extent : option Geom) : string :=
  match extent with
  | Some e =>
      match query_utm_crs_info e with
      | c :: _ => c
      | [] => "EPSG:3857"
      end
  | None => "EPSG:3857"
  end.

Definition NO_EXTENT_WARNING : string :=
  "No extent specified, using the extent of `origins_destinations`".

(** [origins_destinations.to_crs(self._good_enough_crs).buffer(EXTENT_BUFFER)
    .to_crs(WORKING_CRS).geometry.unary_union], in an object without
    extent. *)
Definition derived_extent `{G : Geometry} `{!Buffering}
    (origins_destinations : GeoDataFrame) : option Geom :=
  let frame := _good_enough_crs_of None in
  buffered ← gdf_to_crs frame origins_destinations;
  Some (unary_union
    ((λ p, to_crs frame WORKING_CRS (buffer (geometry p) EXTENT_BUFFER))
       <$> places buffered)).

(** [__init__]; the result is the new object with the warnings issued.
    [Normal None] stands for the exceptions of the geometry steps. *)
Definition __init__ `{G : Geometry} `{!Routing} `{!System} `{!Buffering}
    (osm_history_file : PurePath) (origins_destinations : GeoDataFrame)
    (date : Date) (gtfs_data_sets : list string) (extent : option Geom)
    : M (option (list string * Computer)) :=
  match
    match extent with
    | None =>
        (λ e, ([NO_EXTENT_WARNING], e)) <$> derived_extent origins_destinations
    | Some e => Some ([], e)
    end
  with
  | None => mret None
  | Some (warnings, extent) =>
      self ← set_osm_history_file
                (mkComputer _ date extent gtfs_data_sets None None None None)
                osm_history_file;
      mret ((λ self, (warnings, self))
              <$> set_origins_destinations self origins_destinations)
  end.

(** ** Further notions for the statements *)

(** What [clean_same_same_o_d_pairs] does to a record. *)
Definition zeroed (r : gmap string value) : gmap string value :=
  if value_eq (cell "from_id" r) (cell "to_id" r)
  then <["travel_time" := VInt 0]> r else r.

(** The table the setter builds from the working set. *)
Definition table_of `{Routing} (self : Computer) (osm src : string) (value : GeoDataFrame)
    : DataFrame :=
  mkDF ["walking_time"]
    ((λ p, (id p, {[ "walking_time" :=
                       VInt (walking_time_of (snapped_distance_of self osm p)) ]}))
       <$> representatives self src value).


(** The command line of the first step. *)
Definition time_filter_command `{Geometry} (self : Computer)
    (osm_history_file : PurePath) (temporary_directory : string) : list string :=
  [ "/usr/bin/osmium"; "time-filter";
    path_str osm_history_file; osm_snapshot_datetime_of (date self);
    "--output"; osm_snapshot_filename_of self osm_history_file temporary_directory;
    "--output-format"; "osm.pbf";
    "--overwrite"; "--no-progress" ].

(** No file lies below the directory: it is new. *)
Definition fresh_directory (d : string) (files : gmap string string) : Prop :=
  ∀ p, String.prefix (d +:+ "/") p = true → files !! p = None.

(** *** Further example data *)

(** Travel times that already have a column [walking_time]. *)
Definition example_travel_times_with_walking_time : DataFrame :=
  mkDF ["from_id"; "to_id"; "travel_time"; "walking_time"]
    [ (VInt 0, {[ "from_id" := VInt 1; "to_id" := VInt 2;
                  "travel_time" := VInt 10; "walking_time" := VInt 1 ]}) ].

(** Travel times without the column [to_id]. *)
Definition example_travel_times_without_to_id : DataFrame :=
  mkDF ["from_id"; "travel_time"]
    [ (VInt 0, {[ "from_id" := VInt 1; "travel_time" := VInt 10 ]}) ].

(** Travel times with a text in the place of a number. *)
Definition example_text_travel_times : DataFrame :=
  mkDF ["from_id"; "to_id"; "travel_time"]
    [ (VInt 0, {[ "from_id" := VInt 1; "to_id" := VInt 2;
                  "travel_time" := VStr "late" ]}) ].

(** The travel time between two of the houses of the flat world. *)
Definition example_house_travel_times : DataFrame :=
  mkDF ["from_id"; "to_id"; "travel_time"]
    [ (VInt 0, {[ "from_id" := VStr "a"; "to_id" := VStr "b";
                  "travel_time" := VInt 12 ]}) ].

Module FlatMore.
Import Flat.

(** Buffers with square corners, and a union that keeps the parts apart. *)
Definition flat_buffer (g : geom) (r : Z) : geom :=
  let grow := λ '(x0, y0, x1, y1),
    (x0 - inject_Z r, y0 - inject_Z r, x1 + inject_Z r, y1 + inject_Z r)%Q in
  match parts g with
  | [rect] => Polygon (grow rect)
  | rects => MultiPolygon (grow <$> rects)
  end.

Definition flat_unary_union (gs : list geom) : geom :=
  MultiPolygon (gs ≫= parts).

#[global] Instance flat_buffering : Buffering := {|
  buffer := flat_buffer;
  unary_union := flat_unary_union
|}.

(** A frame without reference frame. *)
Definition houses_without_crs : GeoDataFrame :=
  mkGDF _ None [ mkPlace _ (VStr "a") (Point 1 120) ].

(** A tool that is not installed. *)
Definition osmium_missing (args : list string) (files : gmap string string)
    : option (Z * gmap string string) := None.

(** The files after a first run. *)
Definition disk_with_extract : World :=
  mkWorld {[ "/data/town.osh_2023-06-15T00:00:00Z_8.osm.pbf" := "pbf" ]} [].

End FlatMore.

(** * Properties *)

(** ** Data frames and result correction *)

Section frames.
Implicit Types (df : DataFrame) (r : gmap string value) (k c : string).

Lemma frame_wf_alt df :
  frame_wf df ↔
  Forall (λ lr, ∀ c, (is_Some (lr.2 !! c) ↔ c ∈ columns df)) (rows df).
Proof.
  unfold frame_wf. apply Forall_proper; [|done]. intros [lbl r]. cbn. split.
  - intros E c. by rewrite <- elem_of_dom, E, elem_of_list_to_set.
  - intros E. apply set_eq. intros c.
    by rewrite elem_of_dom, E, elem_of_list_to_set.
Qed.

Lemma access_table_records awt :
  access_table_ok awt →
  Forall (λ lr, ∃ w, lr.2 = {[ "walking_time" := VInt w ]}) (rows awt).
Proof.
  intros (Hc & Hwf & _ & Hint). apply frame_wf_alt in Hwf. rewrite Hc in Hwf.
  apply Forall_lookup. intros i [lbl r] Hi. cbn.
  rewrite Forall_lookup in Hwf, Hint.
  specialize (Hwf _ _ Hi). specialize (Hint _ _ Hi). cbn in Hwf, Hint.
  unfold cell in Hint.
  destruct (r !! "walking_time") as [[w| |]|] eqn:E; try done.
  exists w. apply map_eq. intros c.
  destruct (decide (c = "walking_time")) as [->|Hne].
  - by rewrite lookup_singleton_eq.
  - rewrite lookup_singleton_ne by done. apply eq_None_not_Some.
    rewrite Hwf, list_elem_of_singleton. done.
Qed.

Lemma mapM_fmap_total {A B} (f : A → option B) (g : A → B) (l : list A) :
  Forall (λ x, f x = Some (g x)) l → mapM f l = Some (g <$> l).
Proof.
  induction 1 as [|x l Hx _ IH]; [done|].
  cbn. rewrite Hx. cbn. rewrite IH. done.
Qed.

Lemma set_index_total k df :
  frame_wf df → k ∈ columns df →
  set_index k df =
    Some (mkDF (filter (λ c, c ≠ k) (columns df))
               ((λ lr, (cell k lr.2, delete k lr.2)) <$> rows df)).
Proof.
  intros Hwf%frame_wf_alt Hk. unfold set_index. rewrite decide_True by done.
  rewrite (mapM_fmap_total _ (λ lr, (cell k lr.2, delete k lr.2))); [done|].
  eapply Forall_impl; [exact Hwf|]. intros [lbl r] Hr. cbn in *.
  destruct (proj2 (Hr k) Hk) as [v Hv]. unfold cell. rewrite Hv. done.
Qed.

Lemma filter_key_NoDup (l : list (value * gmap string value)) i :
  NoDup l.*1 →
  filter (λ kr, kr.1 = i) l = [] ∨ ∃ x, filter (λ kr, kr.1 = i) l = [x].
Proof.
  induction l as [|[j m] l IH]; [by left|].
  rewrite fmap_cons, NoDup_cons. intros [Hj Hl]. cbn in Hj.
  rewrite filter_cons. cbn. destruct (decide (j = i)) as [->|Hne].
  - right. exists (i, m). f_equal.
    destruct (filter (λ kr, kr.1 = i) l) as [|[i' m'] l'] eqn:E; [done|].
    exfalso. apply Hj.
    assert ((i', m') ∈ filter (λ kr, kr.1 = i) l) as Hin by (rewrite E; left).
    apply list_elem_of_filter in Hin as [Hi Hin]. cbn in Hi. subst.
    apply list_elem_of_fmap. by exists (i, m').
  - by apply IH.
Qed.

Lemma join_access_times df awt :
  access_table_ok awt → "walking_time" ∉ columns df →
  join df awt =
    Some (mkDF (columns df ++ ["walking_time"])
      ((λ lr, (lr.1, lr.2 ∪ {[ "walking_time" := access_time awt lr.1 ]}))
         <$> rows df)).
Proof.
  intros Hawt Hnot. pose proof (access_table_records awt Hawt) as Hw.
  destruct Hawt as (Hc & _ & Hnd & _). unfold join. rewrite Hc.
  rewrite decide_True by (by repeat constructor).
  do 2 f_equal. induction (rows df) as [|[i r] l IH]; [done|].
  rewrite fmap_cons, bind_cons, IH. clear IH.
  cbn. unfold access_time.
  destruct (filter_key_NoDup (rows awt) i Hnd) as [E|[[j m] E]]; rewrite E.
  - cbn. unfold nan_record. cbn. by rewrite insert_empty.
  - cbn. f_equal. f_equal. f_equal. assert ((j, m) ∈ rows awt) as Hin.
    { eapply (list_elem_of_filter (λ kr, kr.1 = i)). rewrite E. left. }
    rewrite Forall_forall in Hw. destruct (Hw _ Hin) as [w Hm]. cbn in Hm.
    subst m. by rewrite lookup_singleton_eq.
Qed.

Lemma access_time_number awt i :
  access_table_ok awt → is_number (access_time awt i).
Proof.
  intros Hw%access_table_records. unfold access_time.
  destruct (filter _ _) as [|[j m] l] eqn:E; [done|].
  assert ((j, m) ∈ rows awt) as Hin.
  { eapply (list_elem_of_filter (λ kr, kr.1 = i)). rewrite E. left. }
  rewrite Forall_forall in Hw. destruct (Hw _ Hin) as [w ->].
  cbn. by rewrite lookup_singleton_eq.
Qed.

Lemma add_value_number a b :
  is_number a → is_number b →
  ∃ s, add_value a b = Some s ∧ is_number s.
Proof. destruct a, b; cbn; try done; eauto. Qed.

Lemma round_value_number a : is_number a → round_value a = Some a.
Proof. by destruct a. Qed.

(** One record through one turn of the loop. *)
Lemma record_turn (cols : list string) k r a :
  (∀ c, is_Some (r !! c) ↔ c ∈ cols) → k ∈ cols → "walking_time" ∉ cols →
  <[k := cell k r]> (delete k r ∪ {[ "walking_time" := a ]})
  = <["walking_time" := a]> r.
Proof.
  intros Hdom Hk Hwt.
  destruct (proj2 (Hdom k) Hk) as [v Hv].
  assert (r !! "walking_time" = None) as Hnone.
  { apply eq_None_not_Some. by rewrite Hdom. }
  unfold cell. rewrite Hv. cbn.
  rewrite insert_union_l, insert_delete_id by done.
  by rewrite <- insert_union_singleton_r.
Qed.

Lemma record_select (cols : list string) r a :
  (∀ c, is_Some (r !! c) ↔ c ∈ cols) → "walking_time" ∉ cols →
  filter (λ kv, kv.1 ∈ cols) (<["walking_time" := a]> r) = r.
Proof.
  intros Hdom Hwt.
  rewrite map_filter_insert_not by done.
  apply map_filter_id. intros c x Hc. cbn. apply Hdom. by exists x.
Qed.

Lemma record_select_travel_time (cols : list string) r a s :
  (∀ c, is_Some (r !! c) ↔ c ∈ cols) → "walking_time" ∉ cols →
  "travel_time" ∈ cols →
  filter (λ kv, kv.1 ∈ cols)
    (<["travel_time" := s]> (<["walking_time" := a]> r))
  = <["travel_time" := s]> r.
Proof.
  intros Hdom Hwt Htt.
  rewrite map_filter_insert_True by done.
  by rewrite (record_select cols).
Qed.

Lemma add_access_times_turns awt tt :
  add_access_times awt tt
  = turn awt (columns tt) "from_id" tt ≫= turn awt (columns tt) "to_id".
Proof.
  unfold add_access_times. cbn [for_in]. fold (turn awt (columns tt) "from_id" tt).
  destruct (turn awt (columns tt) "from_id" tt) as [tt'|]; [|done].
  cbn. fold (turn awt (columns tt) "to_id" tt').
  by destruct (turn awt (columns tt) "to_id" tt').
Qed.

Lemma turn_total awt df k :
  access_table_ok awt → travel_times_ok df →
  k ∈ columns df → k ≠ "walking_time" →
  turn awt (columns df) k df
  = Some (mkDF (columns df)
      (imap (λ i lr, (VInt (Z.of_nat i), bump awt k lr.2)) (rows df))).
Proof.
  intros Hawt (Hwf & Hf & Ht & Htt & Hwt & Hnum) Hk Hkwt. unfold turn.
  rewrite set_index_total by done. apply frame_wf_alt in Hwf. cbn.
  rewrite join_access_times; [|done|]; cycle 1.
  { cbn [columns]. intros Hin. apply list_elem_of_filter in Hin. tauto. }
  cbn. unfold reset_index. cbn [columns rows].
  rewrite decide_False; cycle 1.
  { rewrite elem_of_app, list_elem_of_filter, list_elem_of_singleton. tauto. }
  cbn. unfold loc_ne_iadd_walking_time. cbn [columns rows].
  rewrite decide_True; cycle 1.
  { destruct (decide ("travel_time" = k)) as [->|Hne]; [left|].
    right. rewrite elem_of_app, list_elem_of_filter. tauto. }
  rewrite <- list_fmap_compose, imap_fmap.
  rewrite (imap_ext _
    (λ i lr, (VInt (Z.of_nat i),
              <["walking_time" := access_time awt (cell k lr.2)]> lr.2))); cycle 1.
  { intros i [lbl r] Hi. cbn. f_equal.
    rewrite Forall_lookup in Hwf. specialize (Hwf _ _ Hi). cbn in Hwf.
    by apply (record_turn (columns df)). }
  rewrite (mapM_fmap_total _ (λ lr,
    (lr.1,
     if value_ne (cell "from_id" lr.2) (cell "to_id" lr.2) then
       <["travel_time" :=
           default VNaN (add_value (cell "travel_time" lr.2)
                                   (cell "walking_time" lr.2))]> lr.2
     else lr.2))); cycle 1.
  { apply Forall_lookup. intros i [lbl r']. rewrite list_lookup_imap.
    destruct (rows df !! i) as [[lbl0 r]|] eqn:Hi; [|done]. cbn.
    intros [= <- <-].
    rewrite Forall_lookup in Hwf. pose proof (Hwf _ _ Hi) as Hdom. cbn in Hdom.
    rewrite Forall_lookup in Hnum. pose proof (Hnum _ _ Hi) as Hx. cbn in Hx.
    assert ("from_id" ≠ "walking_time") as Hn1 by done.
    assert ("to_id" ≠ "walking_time") as Hn2 by done.
    assert ("travel_time" ≠ "walking_time") as Hn3 by done.
    unfold cell in *. rewrite !lookup_insert_eq.
    rewrite !lookup_insert_ne by done.
    destruct (proj2 (Hdom "from_id") Hf) as [f ->].
    destruct (proj2 (Hdom "to_id") Ht) as [t ->].
    destruct (proj2 (Hdom "travel_time") Htt) as [x Hxx]. rewrite Hxx in *.
    cbn. pose proof (access_time_number awt (default VNaN (r !! k)) Hawt) as Ha.
    rewrite round_value_number by done. cbn.
    destruct (value_ne f t); [|done].
    cbn in Hx. destruct (add_value_number x _ Hx Ha) as (s & -> & _). done. }
  cbn. unfold getitem. cbn [columns rows].
  rewrite decide_True; cycle 1.
  { apply Forall_forall. intros c Hc. destruct (decide (c = k)) as [->|Hne].
    - left.
    - right. rewrite elem_of_app, list_elem_of_filter. tauto. }
  do 2 f_equal. rewrite !fmap_imap. apply imap_ext.
  intros i [lbl r] Hi. cbn. f_equal.
  rewrite Forall_lookup in Hwf. pose proof (Hwf _ _ Hi) as Hdom. cbn in Hdom.
  assert ("from_id" ≠ "walking_time") as Hn1 by done.
  assert ("to_id" ≠ "walking_time") as Hn2 by done.
  assert ("travel_time" ≠ "walking_time") as Hn3 by done.
  unfold bump, cell. rewrite !lookup_insert_eq.
  rewrite !lookup_insert_ne by done. cbn.
  destruct (value_ne _ _).
  - by apply record_select_travel_time.
  - by apply record_select.
Qed.

Lemma bump_lookup_ne awt k r c :
  c ≠ "travel_time" → bump awt k r !! c = r !! c.
Proof.
  intros Hc. unfold bump. destruct (value_ne _ _); [|done].
  by rewrite lookup_insert_ne.
Qed.

Lemma bump_cell_ne awt k r c :
  c ≠ "travel_time" → cell c (bump awt k r) = cell c r.
Proof. intros Hc. unfold cell. by rewrite bump_lookup_ne. Qed.

Lemma bump_travel_time awt k r :
  cell "travel_time" (bump awt k r)
  = if value_ne (cell "from_id" r) (cell "to_id" r) then
      default VNaN (add_value (cell "travel_time" r) (access_time awt (cell k r)))
    else cell "travel_time" r.
Proof.
  unfold bump. destruct (value_ne _ _); [|done].
  unfold cell at 1. by rewrite lookup_insert_eq.
Qed.

Lemma bump_is_Some awt k r c :
  is_Some (r !! "travel_time") →
  is_Some (bump awt k r !! c) ↔ is_Some (r !! c).
Proof.
  intros Htt. unfold bump. destruct (value_ne _ _); [|done].
  destruct (decide (c = "travel_time")) as [->|Hne].
  - rewrite lookup_insert_eq. split; [done|]. by eexists.
  - by rewrite lookup_insert_ne.
Qed.

Lemma turn_ok awt df k :
  access_table_ok awt → travel_times_ok df →
  travel_times_ok
    (mkDF (columns df)
      (imap (λ i lr, (VInt (Z.of_nat i), bump awt k lr.2)) (rows df))).
Proof.
  intros Hawt (Hwf & Hf & Ht & Htt & Hwt & Hnum).
  unfold travel_times_ok. rewrite frame_wf_alt in *. cbn [columns rows].
  repeat split; try done.
  - apply Forall_lookup. intros i [lbl r']. rewrite list_lookup_imap.
    destruct (rows df !! i) as [[lbl0 r]|] eqn:Hi; [|done]. cbn.
    intros [= <- <-] c.
    rewrite Forall_lookup in Hwf. pose proof (Hwf _ _ Hi) as Hdom. cbn in Hdom.
    rewrite bump_is_Some; [done|]. by apply Hdom.
  - apply Forall_lookup. intros i [lbl r']. rewrite list_lookup_imap.
    destruct (rows df !! i) as [[lbl0 r]|] eqn:Hi; [|done]. cbn.
    intros [= <- <-].
    rewrite Forall_lookup in Hnum. pose proof (Hnum _ _ Hi) as Hx. cbn in Hx.
    rewrite bump_travel_time. destruct (value_ne _ _); [|done].
    pose proof (access_time_number awt (cell k r) Hawt) as Ha.
    by destruct (add_value_number _ _ Hx Ha) as (s & -> & ?).
Qed.

(** The whole of [add_access_times] on well-formed input. *)
Lemma add_access_times_total awt tt :
  access_table_ok awt → travel_times_ok tt →
  add_access_times awt tt
  = Some (mkDF (columns tt)
      (imap (λ i lr,
         (VInt (Z.of_nat i), bump awt "to_id" (bump awt "from_id" lr.2)))
         (rows tt))).
Proof.
  intros Hawt Htt. rewrite add_access_times_turns.
  pose proof Htt as (Hwf & Hf & Ht & _).
  rewrite turn_total by done. cbn [mbind option_bind].
  pose proof (turn_ok awt tt "from_id" Hawt Htt) as Htt'.
  pose proof (turn_total awt _ "to_id" Hawt Htt') as E. cbn [columns rows] in E.
  rewrite E by done. do 2 f_equal.
  apply list_eq. intros i. rewrite !list_lookup_imap.
  by destruct (rows tt !! i) as [[??]|].
Qed.

Lemma clean_total df :
  frame_wf df → "from_id" ∈ columns df → "to_id" ∈ columns df →
  "travel_time" ∈ columns df →
  clean_same_same_o_d_pairs df
  = Some (mkDF (columns df)
      ((λ lr, (lr.1,
         if value_eq (cell "from_id" lr.2) (cell "to_id" lr.2)
         then <["travel_time" := VInt 0]> lr.2 else lr.2)) <$> rows df)).
Proof.
  intros Hwf%frame_wf_alt Hf Ht Htt. unfold clean_same_same_o_d_pairs.
  rewrite !decide_True by done.
  rewrite (mapM_fmap_total _ (λ lr, (lr.1,
         if value_eq (cell "from_id" lr.2) (cell "to_id" lr.2)
         then <["travel_time" := VInt 0]> lr.2 else lr.2))); [done|].
  eapply Forall_impl; [exact Hwf|]. intros [lbl r] Hdom. cbn in *.
  unfold cell.
  destruct (proj2 (Hdom "from_id") Hf) as [f ->].
  destruct (proj2 (Hdom "to_id") Ht) as [t ->]. cbn.
  destruct (value_eq f t); [done|]. by rewrite decide_True.
Qed.

Lemma access_time_elem awt i m :
  access_table_ok awt → (i, m) ∈ rows awt →
  access_time awt i = cell "walking_time" m.
Proof.
  intros (_ & _ & Hnd & _) Hin. unfold access_time.
  assert ((i, m) ∈ filter (λ kr, kr.1 = i) (rows awt)) as Hf
    by (by apply list_elem_of_filter).
  destruct (filter_key_NoDup (rows awt) i Hnd) as [E|[x E]]; rewrite E in *.
  - by apply elem_of_nil in Hf.
  - apply list_elem_of_singleton in Hf. by subst.
Qed.

Lemma access_time_absent awt i :
  i ∉ (rows awt).*1 → access_time awt i = VNaN.
Proof.
  intros Hi. unfold access_time.
  destruct (filter _ _) as [|[j m] l] eqn:E; [done|]. exfalso. apply Hi.
  assert ((j, m) ∈ filter (λ kr, kr.1 = i) (rows awt)) as Hin
    by (rewrite E; left).
  apply list_elem_of_filter in Hin as [Hj Hin]. cbn in Hj. subst.
  apply list_elem_of_fmap. by exists (i, m).
Qed.
End frames.

Lemma example_access_times_ok : access_table_ok example_access_times.
Proof. repeat split; compute_done. Qed.

Lemma example_travel_times_ok : travel_times_ok example_travel_times.
Proof. repeat split; compute_done. Qed.

Lemma bump_lookup_travel_time awt k r :
  value_ne (cell "from_id" r) (cell "to_id" r) = true →
  bump awt k r !! "travel_time"
  = Some (default VNaN (add_value (cell "travel_time" r) (access_time awt (cell k r)))).
Proof. intros E. unfold bump. rewrite E. by rewrite lookup_insert_eq. Qed.

(** C2.  A record whose [from_id] and [to_id] differ and are both in the
    access-time table leaves [add_access_times] with the raw travel time
    plus the walking time of [from_id] plus the walking time of [to_id]; a
    missing raw travel time stays missing.  The walking times are integers,
    so rounding them changes nothing.  The batch is corrected as a whole:
    the function returns a frame. *)
Theorem add_access_times_adds_both_penalties awt tt i lbl r a b :
  access_table_ok awt → travel_times_ok tt →
  rows tt !! i = Some (lbl, r) →
  value_ne (cell "from_id" r) (cell "to_id" r) = true →
  (cell "from_id" r, {[ "walking_time" := VInt a ]}) ∈ rows awt →
  (cell "to_id" r, {[ "walking_time" := VInt b ]}) ∈ rows awt →
  ∃ out r',
    add_access_times awt tt = Some out
    ∧ rows out !! i = Some (VInt (Z.of_nat i), r')
    ∧ r' !! "travel_time"
      = (y ← add_value (cell "travel_time" r) (VInt a); add_value y (VInt b))
    ∧ ∀ x, r !! "travel_time" = Some (VInt x) →
           r' !! "travel_time" = Some (VInt (x + a + b)).
Proof.
  intros Hawt Htt Hi Hne Ha Hb.
  rewrite add_access_times_total by done.
  eexists _, _. split; [done|]. cbn [rows]. split.
  { rewrite list_lookup_imap, Hi. cbn. done. }
  rewrite bump_lookup_travel_time
    by (by rewrite !bump_cell_ne by done).
  rewrite bump_travel_time, Hne, !bump_cell_ne by done.
  rewrite (access_time_elem awt _ _ Hawt Ha), (access_time_elem awt _ _ Hawt Hb).
  assert (∀ w, cell "walking_time" {[ "walking_time" := VInt w ]} = VInt w) as Hw
    by (intros w; unfold cell; by rewrite lookup_singleton_eq).
  rewrite !Hw. clear Hw.
  destruct Htt as (_ & _ & _ & _ & _ & Hnum).
  rewrite Forall_lookup in Hnum. specialize (Hnum _ _ Hi). cbn in Hnum.
  split.
  - by destruct (cell "travel_time" r).
  - intros x Hx. unfold cell. rewrite Hx. done.
Qed.

Lemma add_access_times_adds_both_penalties_witness :
  access_table_ok example_access_times ∧ travel_times_ok example_travel_times
  ∧ ∃ out r',
      add_access_times example_access_times example_travel_times = Some out
      ∧ rows out !! 0%nat = Some (VInt 0, r')
      ∧ r' !! "travel_time" = Some (VInt 22).
Proof.
  split; [exact example_access_times_ok|].
  split; [exact example_travel_times_ok|].
  destruct (add_access_times_adds_both_penalties
              example_access_times example_travel_times
              0 (VStr "a") (example_record 1 2 10 "walk") 5 7)
    as (out & r' & E & Hrow & _ & Hsum).
  - exact example_access_times_ok.
  - exact example_travel_times_ok.
  - reflexivity.
  - vm_compute. reflexivity.
  - compute_done.
  - compute_done.
  - exists out, r'. split; [exact E|]. split; [exact Hrow|].
    apply (Hsum 10). vm_compute. reflexivity.
Defined.

Lemma imap_bump_twice awt (l : list (value * gmap string value)) :
  imap (λ i lr, (VInt (Z.of_nat i), bump awt "to_id" lr.2))
    (imap (λ i lr, (VInt (Z.of_nat i), bump awt "from_id" lr.2)) l)
  = imap (λ i lr, (VInt (Z.of_nat i), bump awt "to_id" (bump awt "from_id" lr.2))) l.
Proof.
  apply list_eq. intros i. rewrite !list_lookup_imap.
  by destruct (l !! i) as [[??]|].
Qed.

Lemma corrected_ok awt tt :
  access_table_ok awt → travel_times_ok tt →
  travel_times_ok
    (mkDF (columns tt)
      (imap (λ i lr,
         (VInt (Z.of_nat i), bump awt "to_id" (bump awt "from_id" lr.2)))
         (rows tt))).
Proof.
  intros Hawt Htt. rewrite <- imap_bump_twice.
  exact (turn_ok awt _ "to_id" Hawt (turn_ok awt tt "from_id" Hawt Htt)).
Qed.

(** C3.  After [add_access_times] and then [clean_same_same_o_d_pairs], a
    record whose [from_id] equals its [to_id] has travel time 0, whatever
    its raw travel time was; it is still at its position, with the same
    [from_id] and [to_id]. *)
Theorem same_pair_travel_time_is_zero awt tt i lbl r :
  access_table_ok awt → travel_times_ok tt →
  rows tt !! i = Some (lbl, r) →
  value_eq (cell "from_id" r) (cell "to_id" r) = true →
  ∃ out out' r',
    add_access_times awt tt = Some out
    ∧ clean_same_same_o_d_pairs out = Some out'
    ∧ rows out' !! i = Some (VInt (Z.of_nat i), r')
    ∧ r' !! "from_id" = r !! "from_id" ∧ r' !! "to_id" = r !! "to_id"
    ∧ r' !! "travel_time" = Some (VInt 0).
Proof.
  intros Hawt Htt Hi Heq.
  rewrite add_access_times_total by done.
  pose proof (corrected_ok awt tt Hawt Htt) as (Hwf & Hf & Ht & Hx & _).
  eexists _, _, _. split; [done|]. split.
  { by rewrite clean_total. }
  cbn [rows]. split.
  { rewrite list_lookup_fmap, list_lookup_imap, Hi. cbn.
    rewrite !bump_cell_ne by done. rewrite Heq. done. }
  rewrite !lookup_insert_ne by done. rewrite !bump_lookup_ne by done.
  by rewrite lookup_insert_eq.
Qed.

Lemma same_pair_travel_time_is_zero_witness :
  access_table_ok example_access_times ∧ travel_times_ok example_travel_times
  ∧ ∃ out out' r',
      add_access_times example_access_times example_travel_times = Some out
      ∧ clean_same_same_o_d_pairs out = Some out'
      ∧ rows out' !! 1%nat = Some (VInt 1, r')
      ∧ r' !! "travel_time" = Some (VInt 0).
Proof.
  split; [exact example_access_times_ok|].
  split; [exact example_travel_times_ok|].
  destruct (same_pair_travel_time_is_zero
              example_access_times example_travel_times
              1 (VStr "b") (example_record 1 1 3 "walk"))
    as (out & out' & r' & E & E' & Hrow & _ & _ & Hzero).
  - exact example_access_times_ok.
  - exact example_travel_times_ok.
  - reflexivity.
  - vm_compute. reflexivity.
  - exists out, out', r'. auto.
Defined.

(** C9.  [add_access_times] returns a frame with exactly the columns of
    its input, in the same order, [walking_time] not among them; it has as
    many rows, and the row at each position has the columns of the input
    row at that position, and its cells in every column but [travel_time]. *)
Theorem add_access_times_frame awt tt :
  access_table_ok awt → travel_times_ok tt →
  ∃ out,
    add_access_times awt tt = Some out
    ∧ columns out = columns tt
    ∧ ("walking_time" ∉ columns out)
    ∧ length (rows out) = length (rows tt)
    ∧ ∀ i lbl r, rows tt !! i = Some (lbl, r) →
        ∃ r', rows out !! i = Some (VInt (Z.of_nat i), r')
              ∧ dom r' = dom r
              ∧ ∀ c, c ≠ "travel_time" → r' !! c = r !! c.
Proof.
  intros Hawt Htt. rewrite add_access_times_total by done.
  eexists. split; [done|]. cbn [columns rows].
  destruct Htt as (Hwf%frame_wf_alt & _ & _ & Hx & Hwt & _).
  split; [done|]. split; [done|]. split; [by rewrite length_imap|].
  intros i lbl r Hi. eexists. split.
  { rewrite list_lookup_imap, Hi. cbn. done. }
  rewrite Forall_lookup in Hwf. specialize (Hwf _ _ Hi). cbn in Hwf.
  split.
  - apply set_eq. intros c. rewrite !elem_of_dom.
    rewrite !bump_is_Some; [done|by apply Hwf|].
    rewrite bump_is_Some by (by apply Hwf). by apply Hwf.
  - intros c Hc. by rewrite !bump_lookup_ne.
Qed.

Lemma add_access_times_frame_witness :
  access_table_ok example_access_times ∧ travel_times_ok example_travel_times
  ∧ ∃ out,
      add_access_times example_access_times example_travel_times = Some out
      ∧ columns out = ["from_id"; "to_id"; "travel_time"; "mode"]
      ∧ length (rows out) = 3%nat.
Proof.
  split; [exact example_access_times_ok|].
  split; [exact example_travel_times_ok|].
  destruct (add_access_times_frame example_access_times example_travel_times)
    as (out & E & Hc & _ & Hlen & _).
  - exact example_access_times_ok.
  - exact example_travel_times_ok.
  - exists out. auto.
Defined.

(** C4 fails: the record from 2 to 3 has raw travel time 4; 2 has walking
    time 7 and 3 is not in the table.  The corrected travel time is missing,
    not 4 + 7 + 0. *)
Lemma absent_id_gives_missing_travel_time :
  (VInt 3 ∉ (rows example_access_times).*1)
  ∧ rows example_travel_times !! 2%nat
    = Some (VStr "c", example_record 2 3 4 "bus")
  ∧ access_time example_access_times (VInt 2) = VInt 7
  ∧ travel_time_at
      (add_access_times example_access_times example_travel_times) 2
    = Some VNaN
  ∧ travel_time_at
      (add_access_times example_access_times example_travel_times) 2
    ≠ Some (VInt (4 + 7 + 0)).
Proof.
  split; [compute_done|]. split; [reflexivity|].
  split; [vm_compute; reflexivity|]. split; [vm_compute; reflexivity|].
  vm_compute. discriminate.
Qed.

Example duplicate_identifiers_multiply_rows :
  length (rows example_travel_times) = 3%nat
  ∧ (length ∘ rows)
      <$> add_access_times example_duplicate_access_times example_travel_times
    = Some 7%nat.
Proof. split; vm_compute; reflexivity. Qed.

(** C4, amended.  When the [from_id] or the [to_id] of a record with
    different ends is not in the access-time table, [add_access_times] does
    not fail, and returns as many rows as it got, but the travel time of
    that record becomes missing ([NaN]): the missing identifier does not
    count as a penalty of zero. *)
Theorem absent_id_travel_time_missing awt tt i lbl r :
  access_table_ok awt → travel_times_ok tt →
  rows tt !! i = Some (lbl, r) →
  value_ne (cell "from_id" r) (cell "to_id" r) = true →
  (cell "from_id" r ∉ (rows awt).*1) ∨ (cell "to_id" r ∉ (rows awt).*1) →
  ∃ out r',
    add_access_times awt tt = Some out
    ∧ length (rows out) = length (rows tt)
    ∧ rows out !! i = Some (VInt (Z.of_nat i), r')
    ∧ r' !! "travel_time" = Some VNaN.
Proof.
  intros Hawt Htt Hi Hne Habs.
  rewrite add_access_times_total by done.
  eexists _, _. split; [done|]. cbn [rows].
  split; [by rewrite length_imap|]. split.
  { rewrite list_lookup_imap, Hi. cbn. done. }
  rewrite bump_lookup_travel_time
    by (by rewrite !bump_cell_ne by done).
  rewrite bump_travel_time, Hne, !bump_cell_ne by done.
  destruct Htt as (_ & _ & _ & _ & _ & Hnum).
  rewrite Forall_lookup in Hnum. specialize (Hnum _ _ Hi). cbn in Hnum.
  pose proof (access_time_number awt (cell "from_id" r) Hawt) as Hf.
  pose proof (access_time_number awt (cell "to_id" r) Hawt) as Ht.
  destruct Habs as [Ha|Ha]; rewrite (access_time_absent _ _ Ha) in *.
  - destruct (cell "travel_time" r); try done;
      by destruct (access_time awt (cell "to_id" r)).
  - destruct (cell "travel_time" r); try done;
      by destruct (access_time awt (cell "from_id" r)).
Qed.

Lemma absent_id_travel_time_missing_witness :
  access_table_ok example_access_times ∧ travel_times_ok example_travel_times
  ∧ ∃ out r',
      add_access_times example_access_times example_travel_times = Some out
      ∧ rows out !! 2%nat = Some (VInt 2, r')
      ∧ r' !! "travel_time" = Some VNaN.
Proof.
  split; [exact example_access_times_ok|].
  split; [exact example_travel_times_ok|].
  destruct (absent_id_travel_time_missing
              example_access_times example_travel_times
              2 (VStr "c") (example_record 2 3 4 "bus"))
    as (out & r' & E & _ & Hrow & Hnan).
  - exact example_access_times_ok.
  - exact example_travel_times_ok.
  - reflexivity.
  - vm_compute. reflexivity.
  - right. compute_done.
  - exists out, r'. auto.
Defined.

(** ** Places and access times *)

Section places.
Context `{R : Routing}.
Implicit Types (self : Computer) (value : GeoDataFrame) (p : Place).

Lemma unique_all_points (l : list string) :
  l ≠ [] → Forall (λ t, t = "Point") l → unique l = ["Point"].
Proof.
  induction l as [|x l IH]; [done|]. intros _ Hall.
  apply Forall_cons in Hall as [-> Hall]. cbn.
  destruct l as [|y l]; [done|]. by rewrite IH.
Qed.

Lemma unique_not_all_points (l : list string) :
  unique l = ["Point"] → Forall (λ t, t = "Point") l.
Proof.
  induction l as [|x l IH]; [done|]. cbn. intros [= -> E].
  constructor; [done|].
  apply Forall_forall. intros t Ht.
  destruct (decide (t = "Point")) as [|Hne]; [done|]. exfalso.
  assert (∀ l', t ∈ l' → t ∈ unique l') as Hu.
  { clear -Hne. induction l' as [|z l' IH']; [done|]. cbn.
    rewrite !elem_of_cons. intros [->|Hin]; [by left|].
    destruct (decide (t = z)) as [->|Htz]; [by left|]. right.
    apply list_elem_of_filter. auto. }
  assert (t ∈ filter (λ y, y ≠ "Point") (unique l)) as Hin
    by (apply list_elem_of_filter; auto).
  rewrite E in Hin. by apply elem_of_nil in Hin.
Qed.

Lemma set_origins_destinations_total self value src osm :
  crs value = Some src → osm_extract_file self = Some osm →
  set_origins_destinations self value
  = Some (mkComputer _ (date self) (extent self) (gtfs_data_sets self)
      (Some osm)
      (Some (mkDF ["walking_time"]
         ((λ p, (id p,
             {[ "walking_time" :=
                  VInt (walking_time_of (snapped_distance_of self osm p)) ]}))
            <$> representatives self src value)))
      (Some (mkGDF _ (Some WORKING_CRS) (representatives self src value)))
      (Some (mkGDF _ (Some WORKING_CRS) (kept_places self src value)))).
Proof.
  intros Hcrs Hosm. unfold set_origins_destinations, gdf_to_crs.
  rewrite Hcrs, Hosm. cbn [mbind option_bind crs places].
  fold (kept_places self src value). unfold representatives.
  case_decide; cbn [places crs]; do 2 f_equal.
  - do 2 f_equal.
    rewrite zip_with_fmap_r, zip_with_fmap_r, zip_with_diag.
    rewrite zip_with_fmap_r, zip_with_diag. done.
  - do 2 f_equal.
    rewrite zip_with_fmap_r, zip_with_fmap_r, zip_with_diag.
    rewrite zip_with_fmap_r, zip_with_diag. done.
Qed.

Lemma kept_places_filter self value src :
  kept_places self src value
  = (λ p, mkPlace _ (id p) (to_crs src WORKING_CRS (geometry p)))
    <$> filter (λ p, within (to_crs src WORKING_CRS (geometry p))
                       (extent self) = true) (places value).
Proof.
  unfold kept_places. induction (places value) as [|p l IH]; [done|].
  rewrite fmap_cons, !filter_cons. cbn. case_decide; [|done].
  by rewrite fmap_cons, IH.
Qed.

Lemma representatives_id self value src :
  id <$> representatives self src value = id <$> kept_places self src value.
Proof.
  unfold representatives. case_decide; [|done].
  rewrite <- list_fmap_compose. by apply list_fmap_ext.
Qed.

Lemma representatives_points self value src :
  Forall (λ p, geom_type (geometry p) = "Point") (kept_places self src value) →
  representatives self src value = kept_places self src value.
Proof.
  intros Hpts. unfold representatives. case_decide as Hu; [|done].
  destruct (kept_places self src value) as [|p l] eqn:E; [done|].
  exfalso. apply Hu. apply unique_all_points; [done|].
  rewrite <- E in *. by apply Forall_fmap.
Qed.

Lemma WALKING_SPEED_is_60 : (WALKING_SPEED == 60)%Q.
Proof. reflexivity. Qed.

(** 177 is the least integer that is not below 250 * sqrt 2 / 2, the square
    of which is 31250. *)
Lemma MAX_SNAP_DISTANCE_METRES_is_ceiling :
  ((MAX_SNAP_DISTANCE_METRES - 1) ^ 2 < 31250 ≤ MAX_SNAP_DISTANCE_METRES ^ 2)%Z
  ∧ (4 * 31250 = 250 ^ 2 * 2)%Z.
Proof. unfold MAX_SNAP_DISTANCE_METRES. lia. Qed.

Lemma walking_time_of_nonneg (d : option Q) :
  (∀ q, d = Some q → (0 <= q)%Q) → (0 ≤ walking_time_of d)%Z.
Proof.
  intros Hd. unfold walking_time_of. destruct d as [q|]; cbn; [|done].
  change 0 with (Qceiling 0). apply Qceiling_resp_le.
  apply Qle_shift_div_l; [reflexivity|]. rewrite Qmult_0_l. by apply Hd.
Qed.

(** C7.  The [origins_destinations] setter builds the access-time table
    with one row per kept place, in order.  The working set is the one the
    value assigned determines: the rows of the value whose reprojected
    geometry is within the extent, with their representative points; the
    index of the table is the identifiers of just these rows.  A row of the
    table holds the identifier of the place and, as walking time, the ceiling
    of its snap distance over [WALKING_SPEED] (3.6 km/h in metres per minute,
    that is 60) when the place was snapped, and 0 when there was no network
    point within the radius.  Every walking time is an integer that is not
    negative, distances not being negative. *)
Theorem access_times_are_walking_times self value src osm :
  crs value = Some src → osm_extract_file self = Some osm →
  (∀ a b, (0 <= distance a b)%Q) →
  ∃ self' ods awt,
    set_origins_destinations self value = Some self'
    ∧ _origins_destinations self' = Some ods
    ∧ access_walking_times self' = Some awt
    ∧ places ods = representatives self src value
    ∧ (rows awt).*1
      = id <$> filter (λ p, within (to_crs src WORKING_CRS (geometry p))
                              (extent self) = true) (places value)
    ∧ (WALKING_SPEED == (36 # 10) * 1000 / 60)%Q
    ∧ columns awt = ["walking_time"]
    ∧ length (rows awt) = length (places ods)
    ∧ ∀ i p, places ods !! i = Some p →
        ∃ w, rows awt !! i = Some (id p, {[ "walking_time" := VInt w ]})
             ∧ (0 ≤ w)%Z
             ∧ match snapped_distance_of self osm p with
               | Some d => w = Qceiling (d / WALKING_SPEED)
               | None => w = 0
               end.
Proof.
  intros Hcrs Hosm Hdist.
  rewrite (set_origins_destinations_total self value src osm Hcrs Hosm).
  eexists _, _, _. split; [done|].
  cbn [_origins_destinations access_walking_times].
  split; [done|]. split; [done|]. cbn [columns rows places].
  split; [done|]. split.
  { rewrite <- list_fmap_compose.
    change (fst ∘ _) with (@id H). rewrite representatives_id.
    rewrite kept_places_filter, <- list_fmap_compose.
    by apply list_fmap_ext. }
  split; [reflexivity|].
  split; [done|]. split; [by rewrite length_fmap|].
  intros i p Hi. eexists. rewrite list_lookup_fmap, Hi. cbn.
  split; [done|]. split.
  - apply walking_time_of_nonneg. unfold snapped_distance_of.
    intros q. destruct (snap_to_network _ _ _); [|done]. cbn.
    intros [= <-]. apply Hdist.
  - by destruct (snapped_distance_of self osm p).
Qed.

(** C10.  The [origins_destinations] setter keeps exactly the rows whose
    own reprojected geometry is within the extent, in their order; only
    then are geometries replaced by centroids.  So whether a place is kept
    does not depend on where its centroid lies. *)
Theorem places_are_filtered_on_their_own_geometry self value src osm :
  crs value = Some src → osm_extract_file self = Some osm →
  ∃ self' ods,
    set_origins_destinations self value = Some self'
    ∧ _origins_destinations self' = Some ods
    ∧ id <$> places ods
      = id <$> filter (λ p, within (to_crs src WORKING_CRS (geometry p))
                               (extent self) = true) (places value)
    ∧ Forall2 (λ p q, id q = id p
                 ∧ (geometry q = to_crs src WORKING_CRS (geometry p)
                    ∨ geometry q
                      = geometry (centroid_of self
                          (mkPlace _ (id p) (to_crs src WORKING_CRS (geometry p))))))
        (filter (λ p, within (to_crs src WORKING_CRS (geometry p))
                        (extent self) = true) (places value))
        (places ods).
Proof.
  intros Hcrs Hosm.
  rewrite (set_origins_destinations_total self value src osm Hcrs Hosm).
  eexists _, _. split; [done|]. cbn [_origins_destinations].
  split; [done|]. cbn [places]. split.
  - rewrite representatives_id, kept_places_filter.
    rewrite <- list_fmap_compose. by apply list_fmap_ext.
  - unfold representatives. rewrite kept_places_filter. case_decide.
    + rewrite <- list_fmap_compose. apply Forall2_fmap_r, Forall_Forall2_diag.
      apply Forall_forall. intros p _. cbn. auto.
    + apply Forall2_fmap_r, Forall_Forall2_diag.
      apply Forall_forall. intros p _. cbn. auto.
Qed.

(** C8, amended.  Every place in the working set comes from an input place
    whose reprojected original geometry lies within the extent.  When all
    kept geometries are points, the working set holds these geometries
    themselves, which lie within the extent.  Nothing is said of the centroid
    that stands for a geometry that is not a point. *)
Theorem kept_places_were_within_extent self value src osm :
  crs value = Some src → osm_extract_file self = Some osm →
  ∃ self' ods,
    set_origins_destinations self value = Some self'
    ∧ _origins_destinations self' = Some ods
    ∧ id <$> places ods = id <$> kept_places self src value
    ∧ Forall (λ p, within (geometry p) (extent self) = true
                   ∧ ∃ p0, p0 ∈ places value ∧ id p0 = id p
                           ∧ geometry p = to_crs src WORKING_CRS (geometry p0))
        (kept_places self src value)
    ∧ (Forall (λ p, geom_type (geometry p) = "Point") (kept_places self src value) →
       places ods = kept_places self src value
       ∧ Forall (λ p, within (geometry p) (extent self) = true) (places ods)).
Proof.
  intros Hcrs Hosm.
  rewrite (set_origins_destinations_total self value src osm Hcrs Hosm).
  eexists _, _. split; [done|]. cbn [_origins_destinations].
  split; [done|]. cbn [places].
  assert (Forall (λ p, within (geometry p) (extent self) = true)
            (kept_places self src value)) as Hin.
  { apply Forall_forall. intros p Hp.
    by apply list_elem_of_filter in Hp as [? _]. }
  split; [apply representatives_id|]. split.
  - apply Forall_forall. intros p Hp. split.
    { rewrite Forall_forall in Hin. auto. }
    apply list_elem_of_filter in Hp as [_ Hp].
    apply list_elem_of_fmap in Hp as (p0 & -> & Hp0). by exists p0.
  - intros Hpts. by rewrite representatives_points.
Qed.
End places.

(** ** The extract cache *)

Section extract.
Context `{G : Geometry}.

Ltac run_setter :=
  unfold set_osm_history_file, with_TemporaryDirectory, path_exists,
    subprocess_run, to_file, mbind, M_bind, mret, M_ret; cbn [fst snd fs invocations].

Lemma list_ascii_of_string_app s t :
  list_ascii_of_string (s +:+ t)
  = (list_ascii_of_string s ++ list_ascii_of_string t)%list.
Proof.
  induction s as [|a s IH]; [done|].
  change (String a s +:+ t) with (String a (s +:+ t)). cbn [list_ascii_of_string].
  by rewrite IH.
Qed.

Lemma string_app_inj_r (t s1 s2 : string) : s1 +:+ t = s2 +:+ t → s1 = s2.
Proof.
  intros E. apply (f_equal list_ascii_of_string) in E.
  rewrite !list_ascii_of_string_app in E. apply app_inv_tail in E.
  rewrite <- (string_of_list_ascii_of_string s1),
          <- (string_of_list_ascii_of_string s2). by rewrite E.
Qed.

(** C5.  The name of the extract is the text of [hash(self.extent)] between
    fixed parts: for the same archive, date and extent, two interpreter
    states that hash the extent differently give different names. *)
Theorem extract_filename_changes_with_hash (S1 S2 : System) self f :
  py_hash (@hash_state S1) (extent self) ≠ py_hash (@hash_state S2) (extent self) →
  @osm_extract_filename_of G S1 self f ≠ @osm_extract_filename_of G S2 self f.
Proof.
  intros Hne E. apply Hne. unfold osm_extract_filename_of, joinpath in E.
  do 6 apply (inj (String.app _)) in E.
  apply string_app_inj_r in E. by apply (inj pretty) in E.
Qed.

Context `{S : System}.

Lemma set_osm_history_file_path self f w self' w' :
  set_osm_history_file self f w = (Normal self', w') →
  osm_extract_file self' = Some (osm_extract_filename_of self f)
  ∧ date self' = date self ∧ extent self' = extent self.
Proof.
  run_setter. intros Hrun.
  repeat (case_match; simplify_eq/=); done.
Qed.

(** C6.  When the setter has run and the extract is there afterwards,
    running the setter again for the same archive, date and extent starts
    the external tool not once and records the same path. *)
Theorem existing_extract_is_reused self f w0 self1 w1 :
  set_osm_history_file self f w0 = (Normal self1, w1) →
  is_Some (fs w1 !! osm_extract_filename_of self f) →
  ∃ self2 w2,
    set_osm_history_file self f w1 = (Normal self2, w2)
    ∧ invocations w2 = invocations w1
    ∧ osm_extract_file self2 = osm_extract_file self1
    ∧ osm_extract_file self2 = Some (osm_extract_filename_of self f).
Proof.
  intros Hrun Hfile. apply set_osm_history_file_path in Hrun as (Hp & _ & _).
  rewrite Hp. run_setter. rewrite bool_decide_eq_true_2 by done. cbn.
  eexists _, _. split; [done|]. done.
Qed.

(** C1, amended.  The exit status of the external tool is ignored: when the
    tool can be started, the setter returns normally and records the path
    of the extract, and it does so with the same result for a tool that
    differs in its exit statuses only.  The extraction step writes to the
    final path itself: what it left there is there after the setter. *)
Theorem exit_status_is_ignored (S1 S2 : System) self f w :
  @mkdtemp S1 = @mkdtemp S2 → @hash_state S1 = @hash_state S2 →
  (∀ args files, snd <$> @osmium S1 args files = snd <$> @osmium S2 args files) →
  (∀ args files, is_Some (@osmium S1 args files)) →
  ∃ self' w',
    @set_osm_history_file G S1 self f w = (Normal self', w')
    ∧ @set_osm_history_file G S2 self f w = (Normal self', w')
    ∧ osm_extract_file self' = Some (@osm_extract_filename_of G S1 self f)
    ∧ (fs w !! @osm_extract_filename_of G S1 self f = None →
       String.prefix (@mkdtemp S1 (fs w) +:+ "/")
         (@osm_extract_filename_of G S1 self f) = false →
       ∃ files rc files',
         last (invocations w')
           = Some (@extract_command G S1 self f (@mkdtemp S1 (fs w)))
         ∧ @osmium S1 (@extract_command G S1 self f (@mkdtemp S1 (fs w))) files
           = Some (rc, files')
         ∧ fs w' !! @osm_extract_filename_of G S1 self f
           = files' !! @osm_extract_filename_of G S1 self f).
Proof.
  intros Hd Hh Hfiles Hstart.
  assert (@osm_extract_filename_of G S1 self f
          = @osm_extract_filename_of G S2 self f) as Hp
    by (unfold osm_extract_filename_of; by rewrite Hh).
  unfold extract_command, osm_snapshot_filename_of.
  run_setter. rewrite <- !Hp, <- !Hd.
  set (d := @mkdtemp S1 (fs w)). set (p := @osm_extract_filename_of G S1 self f).
  destruct (fs w !! p) as [c|] eqn:Hpw.
  { rewrite bool_decide_eq_true_2 by done. cbn.
    eexists _, _. split; [done|]. split; [done|]. split; [done|]. done. }
  rewrite bool_decide_eq_false_2 by (by intros [??]). cbn.
  set (snapshot := joinpath d _).
  destruct (bool_decide (is_Some (fs w !! snapshot))); cbn.
  - match goal with |- context [@osmium S1 ?a ?fl] =>
      pose proof (Hfiles a fl) as E; destruct (Hstart a fl) as [[rc fs'] Hrun]
    end.
    rewrite Hrun in E |- *. cbn in E.
    match goal with |- context [@osmium S2 ?a ?fl] =>
      destruct (@osmium S2 a fl) as [[rc2 fs2]|] eqn:Hrun2; [|done]
    end.
    cbn in E. injection E as <-. cbn.
    eexists _, _. split; [done|]. split; [done|]. split; [done|].
    intros _ Hpre. cbn [invocations fs]. eexists _, rc, fs'. rewrite last_snoc. split; [done|].
    split; [exact Hrun|]. rewrite map_lookup_filter.
    destruct (fs' !! p); [|done]. cbn. by rewrite option_guard_True.
  - match goal with |- context [@osmium S1 ?a ?fl] =>
      pose proof (Hfiles a fl) as E; destruct (Hstart a fl) as [[rc fs'] Hrun]
    end.
    rewrite Hrun in E |- *. cbn in E.
    match goal with |- context [@osmium S2 ?a ?fl] =>
      destruct (@osmium S2 a fl) as [[rc2 fs2]|] eqn:Hrun2; [|done]
    end.
    cbn in E. injection E as <-. cbn.
    match goal with |- context [@osmium S1 ?a ?fl] =>
      pose proof (Hfiles a fl) as E'; destruct (Hstart a fl) as [[rc' fs''] Hrun']
    end.
    rewrite Hrun' in E' |- *. cbn in E'.
    match goal with |- context [@osmium S2 ?a ?fl] =>
      destruct (@osmium S2 a fl) as [[rc3 fs3]|] eqn:Hrun3; [|done]
    end.
    cbn in E'. injection E' as <-. cbn.
    eexists _, _. split; [done|]. split; [done|]. split; [done|].
    intros _ Hpre. cbn [invocations fs]. eexists _, rc', fs''. rewrite last_snoc. split; [done|].
    split; [exact Hrun'|]. rewrite map_lookup_filter.
    destruct (fs'' !! p); [|done]. cbn. by rewrite option_guard_True.
Qed.
End extract.

(** ** The flat world *)

Module FlatFacts.
Import Flat.

Lemma Qsqrt_down_nonneg q : (0 <= Qsqrt_down q)%Q.
Proof.
  unfold Qsqrt_down, Qle. cbn [Qnum Qden].
  rewrite Z.mul_0_l, Z.mul_1_r. apply Z.sqrt_nonneg.
Qed.

Lemma rect_distance_nonneg a b : (0 <= rect_distance a b)%Q.
Proof.
  destruct a as [[[??]?]?], b as [[[??]?]?]. apply Qsqrt_down_nonneg.
Qed.

Lemma Qmin_list_nonneg l : Forall (λ q, (0 <= q)%Q) l → (0 <= Qmin_list l)%Q.
Proof.
  destruct l as [|q l]; [done|]. intros [Hq Hl]%Forall_cons. cbn.
  induction Hl as [|x l Hx _ IH]; [done|]. cbn.
  by destruct (Qle_bool x _).
Qed.

Lemma flat_distance_nonneg (a b : geom) : (0 <= flat_distance a b)%Q.
Proof.
  apply Qmin_list_nonneg, Forall_forall. intros q Hq.
  apply list_elem_of_bind in Hq as (ra & Hq & _).
  apply list_elem_of_fmap in Hq as (rb & -> & _).
  apply rect_distance_nonneg.
Qed.

(** C8 fails: the two stops lie within the extent, one in each square, so
    the station is kept; its representative point, the centroid, lies
    between the squares, outside the extent. *)
Lemma centroid_of_kept_place_outside_extent :
  within (MultiPoint [(1 # 2, 1 # 2); (7 # 2, 1 # 2)]) two_squares = true
  ∧ kept_summary (computer_of two_squares) station
    = Some [ (VInt 1, "Point", [(2, 1 # 2, 2, 1 # 2)%Q], false) ].
Proof. split; vm_compute; reflexivity. Qed.

Example overlapping_block_is_dropped :
  within (Polygon (2, 1, 5, 3)%Q) square = false
  ∧ within (centroid (Polygon (2, 1, 5, 3)%Q)) square = true
  ∧ kept_summary (computer_of square) block = Some [].
Proof. repeat split; vm_compute; reflexivity. Qed.

Example houses_walking_times :
  (self' ← set_origins_destinations (computer_of strip) houses;
   access_walking_times self')
  = Some (mkDF ["walking_time"]
      [ (VStr "a", {[ "walking_time" := VInt 2 ]});
        (VStr "b", {[ "walking_time" := VInt 2 ]});
        (VStr "c", {[ "walking_time" := VInt 0 ]}) ]).
Proof. vm_compute. reflexivity. Qed.

Lemma access_times_are_walking_times_witness :
  ∃ self' ods awt,
    set_origins_destinations (computer_of strip) houses = Some self'
    ∧ _origins_destinations self' = Some ods
    ∧ access_walking_times self' = Some awt
    ∧ id <$> places ods = [VStr "a"; VStr "b"; VStr "c"]
    ∧ rows awt
      = [ (VStr "a", {[ "walking_time" := VInt 2 ]});
          (VStr "b", {[ "walking_time" := VInt 2 ]});
          (VStr "c", {[ "walking_time" := VInt 0 ]}) ].
Proof.
  destruct (access_times_are_walking_times (computer_of strip) houses
              "EPSG:4326" "/data/town.osm.pbf")
    as (self' & ods & awt & E & Hods & Hawt & Hplaces & _ & _ & _ & Hlen
        & Hrows).
  - reflexivity.
  - reflexivity.
  - exact flat_distance_nonneg.
  - exists self', ods, awt.
    split; [exact E|]. split; [exact Hods|]. split; [exact Hawt|].
    assert (places ods
            = [ mkPlace flat_geometry (VStr "a") (Point 1 120);
                mkPlace flat_geometry (VStr "b") (Point 2 90);
                mkPlace flat_geometry (VStr "c") (Point 3 500) ]) as Hl
      by (rewrite Hplaces; reflexivity).
    rewrite Hl in Hlen, Hrows. split; [by rewrite Hl|].
    destruct (Hrows 0%nat _ eq_refl) as (w0 & H0 & _ & Hw0).
    destruct (Hrows 1%nat _ eq_refl) as (w1 & H1 & _ & Hw1).
    destruct (Hrows 2%nat _ eq_refl) as (w2 & H2 & _ & Hw2).
    vm_compute in Hw0, Hw1, Hw2. subst w0 w1 w2.
    destruct (rows awt) as [|r0 [|r1 [|r2 [|r3 l]]]]; try discriminate Hlen.
    cbn in H0, H1, H2. by simplify_eq.
Defined.

Lemma places_are_filtered_on_their_own_geometry_witness :
  ∃ self' ods,
    set_origins_destinations (computer_of square) block = Some self'
    ∧ _origins_destinations self' = Some ods
    ∧ id <$> places ods
      = id <$> filter (λ p, within (to_crs "EPSG:4326" WORKING_CRS (geometry p))
                               square = true) (places block).
Proof.
  destruct (places_are_filtered_on_their_own_geometry (computer_of square) block
              "EPSG:4326" "/data/town.osm.pbf")
    as (self' & ods & E & Hods & Hids & _).
  - reflexivity.
  - reflexivity.
  - exists self', ods. auto.
Defined.

Lemma kept_places_were_within_extent_witness :
  ∃ self' ods,
    set_origins_destinations (computer_of strip) houses = Some self'
    ∧ _origins_destinations self' = Some ods
    ∧ id <$> places ods = id <$> kept_places (computer_of strip) "EPSG:4326" houses.
Proof.
  destruct (kept_places_were_within_extent (computer_of strip) houses
              "EPSG:4326" "/data/town.osm.pbf")
    as (self' & ods & E & Hods & Hids & _).
  - reflexivity.
  - reflexivity.
  - exists self', ods. auto.
Defined.

Lemma osmium_broken_fails args files rc files' :
  osmium_broken args files = Some (rc, files') → rc ≠ 0.
Proof. unfold osmium_broken. case_match; by intros [= <- _]. Qed.

Lemma osmium_broken_starts args files : is_Some (osmium_broken args files).
Proof. unfold osmium_broken. case_match; by eexists. Qed.

(** C1 fails: a tool that fails in both steps and breaks off in the middle
    of its output.  The setter returns normally, records the extract, and
    the broken file is at the final path. *)
Lemma failed_extraction_is_taken_for_success :
  (∀ args files rc files', osmium_broken args files = Some (rc, files') → rc ≠ 0)
  ∧ returned broken_run.1 = true
  ∧ recorded_extract broken_run.1
    = Some "/data/town.osh_2023-06-15T00:00:00Z_8.osm.pbf"
  ∧ length (invocations broken_run.2) = 2%nat
  ∧ fs broken_run.2 !! "/data/town.osh_2023-06-15T00:00:00Z_8.osm.pbf"
    = Some "pb".
Proof.
  split; [exact osmium_broken_fails|].
  repeat split; vm_compute; reflexivity.
Qed.

Lemma exit_status_is_ignored_witness :
  ∃ self' w',
    @set_osm_history_file _ (system_with osmium_broken 0) planner history
      empty_disk = (Normal self', w')
    ∧ @set_osm_history_file _ (system_with (with_status 0 osmium_broken) 0)
        planner history empty_disk = (Normal self', w').
Proof.
  destruct (exit_status_is_ignored
              (system_with osmium_broken 0)
              (system_with (with_status 0 osmium_broken) 0)
              planner history empty_disk)
    as (self' & w' & E1 & E2 & _).
  - reflexivity.
  - reflexivity.
  - intros args files. cbn. unfold with_status.
    by destruct (osmium_broken args files) as [[??]|].
  - exact osmium_broken_starts.
  - exists self', w'. auto.
Defined.

Lemma extract_filename_changes_with_hash_witness :
  @osm_extract_filename_of _ (system_with osmium_ok 0) planner history
  ≠ @osm_extract_filename_of _ (system_with osmium_ok 1) planner history.
Proof.
  apply (extract_filename_changes_with_hash
           (system_with osmium_ok 0) (system_with osmium_ok 1)).
  vm_compute. discriminate.
Defined.

Example extract_filenames_of_two_interpreters :
  @osm_extract_filename_of _ (system_with osmium_ok 0) planner history
    = "/data/town.osh_2023-06-15T00:00:00Z_8.osm.pbf"
  ∧ @osm_extract_filename_of _ (system_with osmium_ok 1) planner history
    = "/data/town.osh_2023-06-15T00:00:00Z_9.osm.pbf".
Proof. split; vm_compute; reflexivity. Qed.

Lemma existing_extract_is_reused_witness :
  length (invocations first_run.2) = 2%nat
  ∧ ∃ self2 w2,
      @set_osm_history_file _ (system_with osmium_ok 0) planner history
        first_run.2 = (Normal self2, w2)
      ∧ invocations w2 = invocations first_run.2
      ∧ osm_extract_file self2
        = Some (@osm_extract_filename_of _ (system_with osmium_ok 0)
                  planner history).
Proof.
  split; [vm_compute; reflexivity|].
  assert (returned first_run.1 = true) as Hret by (vm_compute; reflexivity).
  assert (is_Some (fs first_run.2
                   !! @osm_extract_filename_of _ (system_with osmium_ok 0)
                        planner history)) as Hfile
    by (vm_compute; by eexists).
  destruct first_run as [[self1|e] w1] eqn:E1; [|discriminate Hret].
  destruct (@existing_extract_is_reused _ (system_with osmium_ok 0)
              planner history empty_disk self1 w1 E1 Hfile)
    as (self2 & w2 & E2 & Hinv & _ & Hpath).
  exists self2, w2. auto.
Defined.
End FlatFacts.

(** * Further properties *)

(** ** Result correction *)

Section corrector.
Implicit Types (df tt awt : DataFrame) (r : gmap string value).

Lemma clean_zeroed df :
  frame_wf df → "from_id" ∈ columns df → "to_id" ∈ columns df →
  "travel_time" ∈ columns df →
  clean_same_same_o_d_pairs df
  = Some (mkDF (columns df) ((λ lr, (lr.1, zeroed lr.2)) <$> rows df)).
Proof. apply clean_total. Qed.

Lemma zeroed_lookup_ne r c : c ≠ "travel_time" → zeroed r !! c = r !! c.
Proof.
  intros Hc. unfold zeroed. destruct (value_eq _ _); [|done].
  by rewrite lookup_insert_ne.
Qed.

Lemma zeroed_cell_ne r c : c ≠ "travel_time" → cell c (zeroed r) = cell c r.
Proof. intros Hc. unfold cell. by rewrite zeroed_lookup_ne. Qed.

Lemma zeroed_idemp r : zeroed (zeroed r) = zeroed r.
Proof.
  unfold zeroed at 1. rewrite !zeroed_cell_ne by done.
  unfold zeroed. destruct (value_eq _ _); [|done].
  by rewrite insert_insert_eq.
Qed.

Lemma bump_same_pair awt k r :
  value_eq (cell "from_id" r) (cell "to_id" r) = true → bump awt k r = r.
Proof. intros E. unfold bump, value_ne. by rewrite E. Qed.

Lemma zeroed_other_pair r :
  value_eq (cell "from_id" r) (cell "to_id" r) = false → zeroed r = r.
Proof. intros E. unfold zeroed. by rewrite E. Qed.

Lemma zeroed_bump awt k r :
  zeroed (bump awt k r) = bump awt k (zeroed r).
Proof.
  destruct (value_eq (cell "from_id" r) (cell "to_id" r)) eqn:E.
  - rewrite (bump_same_pair awt k r) by done.
    by rewrite bump_same_pair by (by rewrite !zeroed_cell_ne).
  - rewrite (zeroed_other_pair r) by done.
    by apply zeroed_other_pair; rewrite !bump_cell_ne.
Qed.

Lemma zeroed_ok tt :
  travel_times_ok tt →
  travel_times_ok (mkDF (columns tt) ((λ lr, (lr.1, zeroed lr.2)) <$> rows tt)).
Proof.
  intros (Hwf & Hf & Ht & Htt & Hwt & Hnum).
  unfold travel_times_ok. rewrite frame_wf_alt in *. cbn [columns rows].
  repeat split; try done.
  - apply Forall_fmap. eapply Forall_impl; [exact Hwf|].
    intros [lbl r] Hdom c. cbn in *. rewrite <- Hdom.
    unfold zeroed. destruct (value_eq _ _); [|done].
    destruct (decide (c = "travel_time")) as [->|Hne].
    + rewrite lookup_insert_eq. split; [|by eexists]. intros _. by apply Hdom.
    + by rewrite lookup_insert_ne.
  - apply Forall_fmap. eapply Forall_impl; [exact Hnum|].
    intros [lbl r] Hx. cbn in *. unfold zeroed.
    destruct (value_eq _ _); [|done]. unfold cell. by rewrite lookup_insert_eq.
Qed.

(** X1.  A record whose [from_id] equals its [to_id] passes
    [add_access_times] unchanged, travel time included; only its index
    label becomes its position. *)
Theorem add_access_times_keeps_same_pairs awt tt i lbl r :
  access_table_ok awt → travel_times_ok tt →
  rows tt !! i = Some (lbl, r) →
  value_eq (cell "from_id" r) (cell "to_id" r) = true →
  ∃ out, add_access_times awt tt = Some out
         ∧ rows out !! i = Some (VInt (Z.of_nat i), r).
Proof.
  intros Hawt Htt Hi Heq. rewrite add_access_times_total by done.
  eexists. split; [done|]. cbn [rows]. rewrite list_lookup_imap, Hi. cbn.
  rewrite (bump_same_pair awt "from_id" r) by done.
  by rewrite bump_same_pair.
Qed.

(** X2.  The two steps of result correction commute: adding the access
    times and then zeroing the same-pair rows gives the same frame as
    zeroing first and adding then, and both succeed. *)
Theorem correction_steps_commute awt tt :
  access_table_ok awt → travel_times_ok tt →
  add_access_times awt tt ≫= clean_same_same_o_d_pairs
  = clean_same_same_o_d_pairs tt ≫= add_access_times awt
  ∧ is_Some (add_access_times awt tt ≫= clean_same_same_o_d_pairs).
Proof.
  intros Hawt Htt.
  pose proof (corrected_ok awt tt Hawt Htt) as (Hwf' & Hf' & Ht' & Hx' & _).
  pose proof Htt as (Hwf & Hf & Ht & Hx & _).
  rewrite add_access_times_total by done. cbn [mbind option_bind].
  rewrite clean_zeroed by done. cbn [columns rows].
  rewrite (clean_zeroed tt) by done. cbn [mbind option_bind].
  pose proof (add_access_times_total awt _ Hawt (zeroed_ok tt Htt)) as E.
  cbn [columns rows] in E. rewrite E. split; [|by eexists].
  do 2 f_equal. apply list_eq. intros i.
  rewrite list_lookup_fmap, !list_lookup_imap, list_lookup_fmap.
  destruct (rows tt !! i) as [[lbl r]|]; [|done]. cbn.
  by rewrite !zeroed_bump.
Qed.

(** X3.  [clean_same_same_o_d_pairs] is idempotent: applied to its own
    result it changes nothing. *)
Theorem clean_same_same_o_d_pairs_idempotent df :
  frame_wf df → "from_id" ∈ columns df → "to_id" ∈ columns df →
  "travel_time" ∈ columns df →
  clean_same_same_o_d_pairs df ≫= clean_same_same_o_d_pairs
  = clean_same_same_o_d_pairs df
  ∧ is_Some (clean_same_same_o_d_pairs df).
Proof.
  intros Hwf Hf Ht Hx. rewrite clean_zeroed by done. cbn [mbind option_bind].
  split; [|by eexists].
  rewrite clean_zeroed; cbn [columns rows]; try done.
  - do 2 f_equal. rewrite <- list_fmap_compose. apply list_fmap_ext.
    intros i [lbl r] _. cbn. by rewrite zeroed_idemp.
  - apply frame_wf_alt. apply frame_wf_alt in Hwf. cbn [columns rows].
    apply Forall_fmap. eapply Forall_impl; [exact Hwf|].
    intros [lbl r] Hdom c. cbn in *. rewrite <- Hdom.
    unfold zeroed. destruct (value_eq _ _); [|done].
    destruct (decide (c = "travel_time")) as [->|Hne].
    + rewrite lookup_insert_eq. split; [|by eexists]. intros _. by apply Hdom.
    + by rewrite lookup_insert_ne.
Qed.

(** X4.  [add_access_times] is not idempotent: applied to its own result it
    adds the walking times of both ends once more. *)
Theorem add_access_times_twice_counts_twice awt tt i lbl r a b x :
  access_table_ok awt → travel_times_ok tt →
  rows tt !! i = Some (lbl, r) →
  value_ne (cell "from_id" r) (cell "to_id" r) = true →
  (cell "from_id" r, {[ "walking_time" := VInt a ]}) ∈ rows awt →
  (cell "to_id" r, {[ "walking_time" := VInt b ]}) ∈ rows awt →
  r !! "travel_time" = Some (VInt x) →
  ∃ out r',
    add_access_times awt tt ≫= add_access_times awt = Some out
    ∧ rows out !! i = Some (VInt (Z.of_nat i), r')
    ∧ r' !! "travel_time" = Some (VInt (x + 2 * a + 2 * b)).
Proof.
  intros Hawt Htt Hi Hne Ha Hb Hx.
  rewrite add_access_times_total by done. cbn [mbind option_bind].
  pose proof (add_access_times_total awt _ Hawt (corrected_ok awt tt Hawt Htt))
    as E. cbn [columns rows] in E. rewrite E. clear E.
  eexists _, _. split; [done|]. cbn [rows]. split.
  { rewrite !list_lookup_imap, Hi. cbn. done. }
  assert (∀ w, cell "walking_time" {[ "walking_time" := VInt w ]} = VInt w) as Hw
    by (intros w; unfold cell; by rewrite lookup_singleton_eq).
  rewrite bump_lookup_travel_time by (by rewrite !bump_cell_ne by done).
  repeat (rewrite ?bump_travel_time, ?bump_cell_ne by done; rewrite ?Hne).
  rewrite (access_time_elem awt _ _ Hawt Ha), (access_time_elem awt _ _ Hawt Hb).
  rewrite !Hw. unfold cell. rewrite Hx. cbn. do 2 f_equal. lia.
Qed.

Lemma turn_columns awt C k df df' :
  turn awt C k df = Some df' → columns df' = C.
Proof.
  unfold turn. intros E.
  destruct (set_index k df) as [d1|]; [|done]. cbn in E.
  destruct (join d1 awt) as [d2|]; [|done]. cbn in E.
  destruct (reset_index k d2) as [d3|]; [|done]. cbn in E.
  destruct (loc_ne_iadd_walking_time d3) as [d4|]; [|done]. cbn in E.
  unfold getitem in E. case_decide; [|done]. by injection E as <-.
Qed.

(** X5.  Travel times that already have a column called [walking_time] make
    [add_access_times] fail: the join refuses the overlapping column. *)
Theorem add_access_times_overlapping_column awt tt :
  columns awt = ["walking_time"] → "walking_time" ∈ columns tt →
  add_access_times awt tt = None.
Proof.
  intros Hc Hwt. rewrite add_access_times_turns.
  assert (turn awt (columns tt) "from_id" tt = None) as ->; [|done].
  unfold turn, set_index. case_decide; [|done].
  destruct (mapM _ _) as [rs|]; [|done]. cbn.
  unfold join. cbn [columns]. rewrite Hc, decide_False; [done|].
  intros Hall. apply Forall_cons in Hall as [Hnot _]. apply Hnot.
  apply list_elem_of_filter. done.
Qed.

(** X6.  Travel times without the column [from_id], [to_id] or
    [travel_time] make [add_access_times] fail. *)
Theorem add_access_times_missing_column awt tt :
  columns awt = ["walking_time"] →
  ("from_id" ∉ columns tt) ∨ ("to_id" ∉ columns tt)
  ∨ ("travel_time" ∉ columns tt) →
  add_access_times awt tt = None.
Proof.
  intros Hc Hmiss. rewrite add_access_times_turns.
  destruct (decide ("from_id" ∈ columns tt)) as [Hf|Hf]; cycle 1.
  { assert (turn awt (columns tt) "from_id" tt = None) as ->; [|done].
    unfold turn, set_index. by rewrite decide_False. }
  destruct (decide ("travel_time" ∈ columns tt)) as [Hx|Hx]; cycle 1.
  { assert (turn awt (columns tt) "from_id" tt = None) as ->; [|done].
    unfold turn, set_index. rewrite decide_True by done.
    destruct (mapM _ _) as [rs|]; [|done]. cbn.
    unfold join. cbn [columns]. case_decide; [|done]. cbn.
    unfold reset_index. cbn [columns]. case_decide; [done|]. cbn.
    unfold loc_ne_iadd_walking_time. cbn [columns].
    rewrite decide_False; [done|].
    rewrite elem_of_cons, elem_of_app, list_elem_of_filter, Hc,
      list_elem_of_singleton.
    intros [?|[[_ ?]|?]]; done. }
  destruct Hmiss as [?|[Ht|?]]; [done| |done].
  destruct (turn awt (columns tt) "from_id" tt) as [tt'|] eqn:E; [|done].
  apply turn_columns in E. cbn.
  unfold turn, set_index. by rewrite E, decide_False.
Qed.

(** X7.  A travel time that is text, in a record with different ends, makes
    [add_access_times] fail for the whole batch. *)
Theorem add_access_times_text_travel_time awt tt i lbl r s :
  access_table_ok awt → frame_wf tt →
  "from_id" ∈ columns tt → "to_id" ∈ columns tt → "travel_time" ∈ columns tt →
  "walking_time" ∉ columns tt →
  rows tt !! i = Some (lbl, r) →
  value_ne (cell "from_id" r) (cell "to_id" r) = true →
  r !! "travel_time" = Some (VStr s) →
  add_access_times awt tt = None.
Proof.
  intros Hawt Hwf Hf Ht Hx Hwt Hi Hne Hs. rewrite add_access_times_turns.
  assert (turn awt (columns tt) "from_id" tt = None) as ->; [|done].
  unfold turn. rewrite set_index_total by done. cbn.
  rewrite join_access_times; [|done|]; cycle 1.
  { cbn [columns]. intros Hin. apply list_elem_of_filter in Hin. tauto. }
  cbn. unfold reset_index. cbn [columns rows].
  rewrite decide_False; cycle 1.
  { rewrite elem_of_app, list_elem_of_filter, list_elem_of_singleton.
    intros [[? _]|?]; done. }
  cbn. unfold loc_ne_iadd_walking_time. cbn [columns rows].
  rewrite decide_True; cycle 1.
  { right. rewrite elem_of_app, list_elem_of_filter. left. done. }
  match goal with
  | |- context [mapM ?f ?l] => assert (mapM f l = None) as ->; [|done]
  end.
  apply mapM_None_2, Exists_exists.
  apply frame_wf_alt in Hwf. rewrite Forall_lookup in Hwf.
  pose proof (Hwf _ _ Hi) as Hdom. cbn in Hdom.
  exists (VInt (Z.of_nat i),
          <["walking_time" := access_time awt (cell "from_id" r)]> r). split.
  - apply list_elem_of_lookup. exists i.
    rewrite list_lookup_imap, !list_lookup_fmap, Hi. cbn. f_equal. f_equal.
    by apply (record_turn (columns tt)).
  - assert ("from_id" ≠ "walking_time") as Hn1 by done.
    assert ("to_id" ≠ "walking_time") as Hn2 by done.
    assert ("travel_time" ≠ "walking_time") as Hn3 by done.
    rewrite lookup_insert_eq, !lookup_insert_ne by done.
    unfold cell in Hne.
    destruct (proj2 (Hdom "from_id") Hf) as [f Ef].
    destruct (proj2 (Hdom "to_id") Ht) as [t Et].
    rewrite Ef, Et in *. cbn in Hne |- *.
    rewrite round_value_number by (by apply access_time_number).
    cbn. rewrite Hne, Hs. done.
Qed.
End corrector.

(** ** The setter of the places *)

Section more_places.
Context `{R : Routing}.
Implicit Types (self : Computer) (value : GeoDataFrame) (p : Place).

Lemma kept_places_ids_sublist self value src :
  id <$> kept_places self src value `sublist_of` id <$> places value.
Proof.
  rewrite kept_places_filter, <- list_fmap_compose.
  change (id ∘ _) with (@id H). apply fmap_sublist, sublist_filter.
Qed.

Lemma table_of_ids self value src osm :
  (rows (table_of self osm src value)).*1 = id <$> representatives self src value.
Proof. cbn [rows table_of]. rewrite <- list_fmap_compose. by apply list_fmap_ext. Qed.

Lemma table_of_ok self value src osm :
  NoDup (id <$> places value) → access_table_ok (table_of self osm src value).
Proof.
  intros Hnd. unfold access_table_ok. split; [done|]. split; [|split].
  - apply Forall_fmap, Forall_forall. intros p _. cbn.
    rewrite dom_singleton_L. set_solver.
  - rewrite table_of_ids, representatives_id.
    eapply sublist_NoDup; [done|apply kept_places_ids_sublist].
  - apply Forall_fmap, Forall_forall. intros p _. cbn.
    unfold cell. by rewrite lookup_singleton_eq.
Qed.

Lemma set_origins_destinations_table self value src osm :
  crs value = Some src → osm_extract_file self = Some osm →
  set_origins_destinations self value
  = Some (mkComputer _ (date self) (extent self) (gtfs_data_sets self)
      (Some osm) (Some (table_of self osm src value))
      (Some (mkGDF _ (Some WORKING_CRS) (representatives self src value)))
      (Some (mkGDF _ (Some WORKING_CRS) (kept_places self src value)))).
Proof. apply set_origins_destinations_total. Qed.

(** X8.  For places with unique identifiers the [origins_destinations]
    setter builds a proper access-time table: one integer column
    [walking_time], one row per kept place, indexed by the identifiers of
    the working set in its order, which are among the identifiers given. *)
Theorem setter_builds_access_table self value src osm :
  crs value = Some src → osm_extract_file self = Some osm →
  NoDup (id <$> places value) →
  ∃ self' awt ods,
    set_origins_destinations self value = Some self'
    ∧ access_walking_times self' = Some awt
    ∧ _origins_destinations self' = Some ods
    ∧ access_table_ok awt
    ∧ (rows awt).*1 = id <$> places ods
    ∧ (rows awt).*1 `sublist_of` id <$> places value.
Proof.
  intros Hcrs Hosm Hnd.
  rewrite (set_origins_destinations_table self value src osm Hcrs Hosm).
  eexists _, _, _. split; [done|].
  cbn [access_walking_times _origins_destinations]. split; [done|].
  split; [done|]. cbn [places].
  split; [by apply table_of_ok|]. split; [apply table_of_ids|].
  rewrite table_of_ids, representatives_id. apply kept_places_ids_sublist.
Qed.

(** X9.  Setter and correction together: for places with unique
    identifiers, a travel time between two different places of the working
    set is corrected by the walking times of just these two places. *)
Theorem travel_time_between_places self value src osm tt i lbl r p q x :
  crs value = Some src → osm_extract_file self = Some osm →
  NoDup (id <$> places value) → travel_times_ok tt →
  rows tt !! i = Some (lbl, r) →
  p ∈ representatives self src value → q ∈ representatives self src value →
  cell "from_id" r = id p → cell "to_id" r = id q →
  value_ne (id p) (id q) = true →
  r !! "travel_time" = Some (VInt x) →
  ∃ self' awt out r',
    set_origins_destinations self value = Some self'
    ∧ access_walking_times self' = Some awt
    ∧ add_access_times awt tt = Some out
    ∧ rows out !! i = Some (VInt (Z.of_nat i), r')
    ∧ r' !! "travel_time"
      = Some (VInt (x + walking_time_of (snapped_distance_of self osm p)
                     + walking_time_of (snapped_distance_of self osm q))).
Proof.
  intros Hcrs Hosm Hnd Htt Hi Hp Hq Hf Ht Hne Hx.
  rewrite (set_origins_destinations_table self value src osm Hcrs Hosm).
  pose proof (table_of_ok self value src osm Hnd) as Hawt.
  eexists _, _, _, _. split; [done|]. cbn [access_walking_times].
  split; [done|]. rewrite add_access_times_total by done.
  split; [done|]. cbn [rows]. split.
  { rewrite list_lookup_imap, Hi. cbn. done. }
  assert (∀ p', p' ∈ representatives self src value →
            access_time (table_of self osm src value) (id p')
            = VInt (walking_time_of (snapped_distance_of self osm p'))) as Hat.
  { intros p' Hp'.
    rewrite (access_time_elem _ (id p')
               {[ "walking_time" :=
                    VInt (walking_time_of (snapped_distance_of self osm p')) ]}
               Hawt).
    - unfold cell. by rewrite lookup_singleton_eq.
    - cbn [rows table_of]. apply list_elem_of_fmap. by exists p'. }
  rewrite bump_lookup_travel_time
    by (rewrite !bump_cell_ne by done; by rewrite Hf, Ht).
  rewrite bump_travel_time, !bump_cell_ne, Hf, Ht, Hne by done.
  rewrite !Hat by done. unfold cell. rewrite Hx. done.
Qed.

(** X10.  One geometry that is not a point sends all kept geometries, the
    points too, through the centroid and the two reprojections. *)
Theorem mixed_geometries_become_centroids self value src osm p :
  crs value = Some src → osm_extract_file self = Some osm →
  p ∈ kept_places self src value → geom_type (geometry p) ≠ "Point" →
  ∃ self' ods,
    set_origins_destinations self value = Some self'
    ∧ _origins_destinations self' = Some ods
    ∧ places ods = centroid_of self <$> kept_places self src value.
Proof.
  intros Hcrs Hosm Hp Hty.
  rewrite (set_origins_destinations_table self value src osm Hcrs Hosm).
  eexists _, _. split; [done|]. cbn [_origins_destinations]. split; [done|].
  cbn [places]. unfold representatives. case_decide as Hu; [done|].
  exfalso. apply unique_not_all_points in Hu.
  rewrite Forall_fmap, Forall_forall in Hu. by apply Hty, (Hu p).
Qed.

Lemma set_origins_destinations_inv self value self' :
  set_origins_destinations self value = Some self' →
  ∃ src osm, crs value = Some src ∧ osm_extract_file self = Some osm.
Proof.
  intros E. unfold set_origins_destinations, gdf_to_crs in E.
  destruct (crs value) as [src|]; [|done]. cbn in E.
  destruct (osm_extract_file self) as [osm|]; [|done]. by eexists _, _.
Qed.

(** X11.  Without a reference frame of the frame, or without a recorded
    extract, the setter fails. *)
Theorem set_origins_destinations_fails self value :
  crs value = None ∨ osm_extract_file self = None →
  set_origins_destinations self value = None.
Proof.
  intros Hnone.
  destruct (set_origins_destinations self value) as [self'|] eqn:E; [|done].
  apply set_origins_destinations_inv in E as (src & osm & Hcrs & Hosm).
  destruct Hnone; congruence.
Qed.

Lemma set_origins_destinations_fields self value self' :
  set_origins_destinations self value = Some self' →
  date self' = date self ∧ extent self' = extent self
  ∧ gtfs_data_sets self' = gtfs_data_sets self
  ∧ osm_extract_file self' = osm_extract_file self.
Proof.
  intros E.
  destruct (set_origins_destinations_inv _ _ _ E) as (src & osm & Hcrs & Hosm).
  rewrite (set_origins_destinations_table self value src osm Hcrs Hosm) in E.
  injection E as <-. by cbn.
Qed.

(** X12.  The setter keeps the date, the extent, the GTFS data sets and the
    extract, and remembers the kept rows with their own geometries, which
    lie within the extent. *)
Theorem set_origins_destinations_frame self value self' :
  set_origins_destinations self value = Some self' →
  date self' = date self ∧ extent self' = extent self
  ∧ gtfs_data_sets self' = gtfs_data_sets self
  ∧ osm_extract_file self' = osm_extract_file self
  ∧ ∃ kept ods,
      __origins_destinations self' = Some kept
      ∧ _origins_destinations self' = Some ods
      ∧ id <$> places ods = id <$> places kept
      ∧ Forall (λ p, within (geometry p) (extent self) = true) (places kept).
Proof.
  intros E.
  destruct (set_origins_destinations_inv _ _ _ E) as (src & osm & Hcrs & Hosm).
  pose proof (set_origins_destinations_fields _ _ _ E) as (? & ? & ? & ?).
  rewrite (set_origins_destinations_table self value src osm Hcrs Hosm) in E.
  injection E as <-. repeat split; try done. cbn.
  eexists _, _. split; [done|]. split; [done|]. cbn [places].
  split; [apply representatives_id|].
  apply Forall_forall. intros p Hp.
  by apply list_elem_of_filter in Hp as [? _].
Qed.

(** X13.  The walking time is the number of started minutes at 60 m a minute,
    and within the snap radius it is at most 3. *)
Theorem walking_time_of_bounds (d : Q) :
  (0 <= d)%Q →
  let w := walking_time_of (Some d) in
  (0 ≤ w)%Z
  ∧ (inject_Z (60 * (w - 1)) < d)%Q ∧ (d <= inject_Z (60 * w))%Q
  ∧ ((d <= inject_Z MAX_SNAP_DISTANCE_METRES)%Q → (w ≤ 3)%Z).
Proof.
  intros Hd w.
  assert (w = Qceiling (d / 60)) as Hw.
  { unfold w, walking_time_of. cbn [fmap option_fmap option_map default].
    apply Qceiling_comp. by rewrite WALKING_SPEED_is_60. }
  pose proof (Qle_ceiling (d / 60)) as Hle.
  pose proof (Qceiling_lt (d / 60)) as Hlt.
  rewrite <- Hw in Hle, Hlt.
  assert (d == 60 * (d / 60))%Q as Hd60 by (field).
  split; [|split; [|split]].
  - rewrite Hw. change 0 with (Qceiling 0). apply Qceiling_resp_le.
    apply Qle_shift_div_l; [reflexivity|]. by rewrite Qmult_0_l.
  - rewrite Hd60, inject_Z_mult.
    apply Qmult_lt_l; [reflexivity|]. exact Hlt.
  - rewrite Hd60 at 1. rewrite inject_Z_mult.
    apply Qmult_le_l; [reflexivity|]. exact Hle.
  - intros Hr. rewrite Hw. change 3 with (Qceiling (177 # 60)).
    apply Qceiling_resp_le. apply Qle_shift_div_r; [reflexivity|].
    eapply Qle_trans; [exact Hr|]. by vm_compute.
Qed.
End more_places.

(** ** The setter of the extract *)

Section more_extract.
Context `{G : Geometry} `{S : System}.

Ltac run_setter :=
  unfold set_osm_history_file, with_TemporaryDirectory, path_exists,
    subprocess_run, to_file, mbind, M_bind, mret, M_ret; cbn [fst snd fs invocations].

Lemma prefix_app (a b : string) : String.prefix a (a +:+ b) = true.
Proof.
  induction a as [|c a IH]; [by destruct b|].
  change (String c a +:+ b) with (String c (a +:+ b)). cbn.
  by destruct (Ascii.ascii_dec c c).
Qed.

Lemma joinpath_below (d name : string) :
  String.prefix (d +:+ "/") (joinpath d name) = true.
Proof.
  unfold joinpath.
  assert (∀ a b c, a +:+ (b +:+ c) = (a +:+ b) +:+ c) as Hassoc.
  { intros a b c. induction a as [|x a IH]; [done|].
    change (String x a +:+ ?s) with (String x (a +:+ s)). by rewrite IH. }
  rewrite Hassoc. apply prefix_app.
Qed.

Lemma fresh_filter d (files : gmap string string) :
  fresh_directory d files →
  filter (λ kv, String.prefix (d +:+ "/") kv.1 = false) files = files.
Proof.
  intros Hfresh. apply map_filter_id. intros p c Hp. cbn.
  destruct (String.prefix (d +:+ "/") p) eqn:E; [|done].
  by rewrite (Hfresh p E) in Hp.
Qed.

Lemma set_osm_history_file_fields self f w self' w' :
  set_osm_history_file self f w = (Normal self', w') →
  self' = mkComputer _ (date self) (extent self) (gtfs_data_sets self)
            (Some (osm_extract_filename_of self f))
            (access_walking_times self) (_origins_destinations self)
            (__origins_destinations self).
Proof.
  run_setter. intros Hrun.
  repeat (case_match; simplify_eq/=); done.
Qed.

Lemma set_osm_history_file_returns self f w :
  (∀ args files, is_Some (osmium args files)) →
  ∃ self' w', set_osm_history_file self f w = (Normal self', w').
Proof.
  intros Hstart. run_setter.
  repeat (case_match; simplify_eq/=); eauto;
    match goal with
    | H : osmium ?a ?fl = None |- _ =>
        destruct (Hstart a fl) as [? ?]; congruence
    end.
Qed.

(** X14.  Nothing is left below the temporary directory. *)
Theorem temporary_directory_is_removed self f w p :
  String.prefix (mkdtemp (fs w) +:+ "/") p = true →
  fs (set_osm_history_file self f w).2 !! p = None.
Proof.
  intros Hp. run_setter.
  repeat (case_match; simplify_eq/=);
    apply map_lookup_filter_None; right; intros c _; cbn; by rewrite Hp.
Qed.

(** X15.  With the extract there and a new temporary directory, the setter
    changes no file and starts no tool. *)
Theorem existing_extract_leaves_files self f w :
  is_Some (fs w !! osm_extract_filename_of self f) →
  fresh_directory (mkdtemp (fs w)) (fs w) →
  (set_osm_history_file self f w).2 = w.
Proof.
  intros Hfile Hfresh. run_setter. rewrite bool_decide_eq_true_2 by done.
  cbn. rewrite fresh_filter by done. by destruct w.
Qed.

(** X16.  Without the extract, both steps run, in a new temporary directory
    also the first one: the snapshot of an earlier run is gone with its
    directory. *)
Theorem missing_extract_runs_both_steps self f w :
  fs w !! osm_extract_filename_of self f = None →
  fresh_directory (mkdtemp (fs w)) (fs w) →
  (∀ args files, is_Some (osmium args files)) →
  (∃ self', (set_osm_history_file self f w).1 = Normal self')
  ∧ invocations (set_osm_history_file self f w).2
    = (invocations w
       ++ [ time_filter_command self f (mkdtemp (fs w));
            extract_command self f (mkdtemp (fs w)) ])%list.
Proof.
  intros Hnone Hfresh Hstart.
  unfold time_filter_command, extract_command, osm_snapshot_filename_of.
  run_setter. rewrite Hnone.
  rewrite bool_decide_eq_false_2 by (by intros [??]). cbn.
  rewrite (Hfresh _ (joinpath_below _ _)).
  rewrite bool_decide_eq_false_2 by (by intros [??]). cbn.
  match goal with |- context [osmium ?a ?fl] =>
    destruct (Hstart a fl) as [[rc fs'] ->]
  end. cbn.
  match goal with |- context [osmium ?a ?fl] =>
    destruct (Hstart a fl) as [[rc' fs''] ->]
  end. cbn.
  split; [by eexists|]. by rewrite <- app_assoc.
Qed.

(** X17.  A tool that cannot be started makes the setter raise, with the
    files as they were. *)
Theorem tool_that_cannot_start_raises self f w :
  fs w !! osm_extract_filename_of self f = None →
  fresh_directory (mkdtemp (fs w)) (fs w) →
  osmium (time_filter_command self f (mkdtemp (fs w))) (fs w) = None →
  set_osm_history_file self f w
  = (Raise OSError,
     mkWorld (fs w)
       (invocations w ++ [time_filter_command self f (mkdtemp (fs w))])%list).
Proof.
  intros Hnone Hfresh Hstart. revert Hstart.
  unfold time_filter_command, osm_snapshot_filename_of.
  run_setter. intros Hstart. rewrite Hnone.
  rewrite bool_decide_eq_false_2 by (by intros [??]). cbn.
  rewrite (Hfresh _ (joinpath_below _ _)).
  rewrite bool_decide_eq_false_2 by (by intros [??]). cbn.
  rewrite Hstart. cbn. by rewrite fresh_filter.
Qed.
End more_extract.

(** ** The constructor *)

Section constructor.
Context `{G : Geometry} `{!Routing} `{!System} `{!Buffering}.

Lemma _good_enough_crs_of_extent (self : Computer) :
  _good_enough_crs self = _good_enough_crs_of (Some (extent self)).
Proof. done. Qed.

Lemma init_inv f od d gtfs e w warnings c w' :
  __init__ f od d gtfs e w = (Normal (Some (warnings, c)), w') →
  ∃ ext c0,
    match e with
    | Some e0 => warnings = [] ∧ ext = e0
    | None => warnings = [NO_EXTENT_WARNING] ∧ derived_extent od = Some ext
    end
    ∧ set_osm_history_file (mkComputer _ d ext gtfs None None None None) f w
      = (Normal c0, w')
    ∧ set_origins_destinations c0 od = Some c.
Proof.
  unfold __init__. intros E.
  destruct e as [e0|].
  - unfold mbind, M_bind, mret, M_ret in E.
    destruct (set_osm_history_file _ f w) as [[c0|?] w0] eqn:E0; [|done].
    destruct (set_origins_destinations c0 od) as [c1|] eqn:E1; [|done].
    injection E as <- <- <-. by eexists _, _.
  - destruct (derived_extent od) as [ext|] eqn:Ed; [|done]. cbn in E.
    unfold mbind, M_bind, mret, M_ret in E.
    destruct (set_osm_history_file _ f w) as [[c0|?] w0] eqn:E0; [|done].
    destruct (set_origins_destinations c0 od) as [c1|] eqn:E1; [|done].
    injection E as <- <- <-. by eexists _, _.
Qed.

(** X18.  The extent of the new object is the one given, without a warning,
    or, with one warning, the union of the places buffered by 2000 in web
    mercator: no UTM frame is looked for, the object having no extent yet. *)
Theorem init_extent f od d gtfs e w warnings c w' :
  __init__ f od d gtfs e w = (Normal (Some (warnings, c)), w') →
  date c = d ∧ gtfs_data_sets c = gtfs
  ∧ match e with
    | Some e0 => warnings = [] ∧ extent c = e0
    | None =>
        warnings = [NO_EXTENT_WARNING]
        ∧ ∃ src, crs od = Some src
          ∧ extent c
            = unary_union
                ((λ p, to_crs "EPSG:3857" WORKING_CRS
                         (buffer (to_crs src "EPSG:3857" (geometry p)) 2000))
                   <$> places od)
    end.
Proof.
  intros (ext & c0 & He & E0 & E1)%init_inv.
  apply set_osm_history_file_fields in E0. cbn in E0. subst c0.
  apply set_origins_destinations_fields in E1 as (Hd & Hext & Hg & _).
  cbn in Hd, Hext, Hg.
  split; [done|]. split; [done|].
  destruct e as [e0|].
  - destruct He as [-> ->]. done.
  - destruct He as [-> Hder]. split; [done|].
    unfold derived_extent, gdf_to_crs in Hder.
    destruct (crs od) as [src|]; [|done]. cbn in Hder. injection Hder as <-.
    exists src. split; [done|]. rewrite Hext.
    by rewrite <- list_fmap_compose.
Qed.

(** X19.  When the constructor returns an object, it has assigned the
    extract before the places.  The files and the tool runs it leaves are
    those of the [osm_history_file] setter alone, run on an object that has
    the date and the final extent and no places yet; the extract recorded is
    the one that setter names; and the places were snapped on the network of
    that extract and the GTFS data sets given, so that the access-time table
    and the working set are those of the [origins_destinations] setter for
    the frame given. *)
Theorem init_assigns_extract_before_places f od d gtfs e w warnings c w' :
  __init__ f od d gtfs e w = (Normal (Some (warnings, c)), w') →
  ∃ src c0,
    crs od = Some src
    ∧ set_osm_history_file
        (mkComputer _ d (extent c) gtfs None None None None) f w
      = (Normal c0, w')
    ∧ access_walking_times c0 = None ∧ _origins_destinations c0 = None
    ∧ osm_extract_file c0 = Some (osm_extract_filename_of c f)
    ∧ osm_extract_file c = Some (osm_extract_filename_of c f)
    ∧ access_walking_times c
      = Some (table_of c (osm_extract_filename_of c f) src od)
    ∧ _origins_destinations c
      = Some (mkGDF _ (Some WORKING_CRS) (representatives c src od)).
Proof.
  intros (ext & c0 & _ & E0 & E1)%init_inv.
  pose proof (set_osm_history_file_fields _ _ _ _ _ E0) as Hc0. cbn in Hc0.
  destruct (set_origins_destinations_inv _ _ _ E1) as (src & osm & Hcrs & Hosm).
  rewrite (set_origins_destinations_table c0 od src osm Hcrs Hosm) in E1.
  injection E1 as <-. exists src, c0. subst c0. cbn in Hosm.
  injection Hosm as <-.
  cbn [extent date osm_extract_file access_walking_times _origins_destinations].
  done.
Qed.

(** X20.  A frame without reference frame is refused at once when the extent
    has to be derived from it, but only after the extraction when an
    extent is given. *)
Theorem init_without_reference_frame f od d gtfs e w :
  crs od = None →
  (∀ x, (__init__ f od d gtfs e w).1 ≠ Normal (Some x))
  ∧ match e with
    | None => __init__ f od d gtfs e w = (Normal None, w)
    | Some e0 =>
        (__init__ f od d gtfs e w).2
        = (set_osm_history_file
             (mkComputer _ d e0 gtfs None None None None) f w).2
    end.
Proof.
  intros Hcrs. unfold __init__, derived_extent, gdf_to_crs.
  rewrite Hcrs. destruct e as [e0|]; cbn; [|done].
  unfold mbind, M_bind, mret, M_ret.
  destruct (set_osm_history_file _ f w) as [[c0|?] w0]; [|done].
  unfold set_origins_destinations, gdf_to_crs. by rewrite Hcrs.
Qed.
End constructor.

(** ** Instances of the further properties *)

Lemma add_access_times_keeps_same_pairs_witness :
  ∃ out, add_access_times example_access_times example_travel_times = Some out
         ∧ rows out !! 1%nat = Some (VInt 1, example_record 1 1 3 "walk").
Proof.
  apply (add_access_times_keeps_same_pairs
           example_access_times example_travel_times 1 (VStr "b")).
  - exact example_access_times_ok.
  - exact example_travel_times_ok.
  - reflexivity.
  - vm_compute. reflexivity.
Defined.

Lemma correction_steps_commute_witness :
  add_access_times example_access_times example_travel_times
    ≫= clean_same_same_o_d_pairs
  = clean_same_same_o_d_pairs example_travel_times
      ≫= add_access_times example_access_times.
Proof.
  apply (correction_steps_commute example_access_times example_travel_times).
  - exact example_access_times_ok.
  - exact example_travel_times_ok.
Defined.

Lemma clean_same_same_o_d_pairs_idempotent_witness :
  clean_same_same_o_d_pairs example_travel_times ≫= clean_same_same_o_d_pairs
  = clean_same_same_o_d_pairs example_travel_times.
Proof.
  apply (clean_same_same_o_d_pairs_idempotent example_travel_times).
  - apply example_travel_times_ok.
  - compute_done.
  - compute_done.
  - compute_done.
Defined.

Lemma add_access_times_twice_counts_twice_witness :
  ∃ out r',
    add_access_times example_access_times example_travel_times
      ≫= add_access_times example_access_times = Some out
    ∧ rows out !! 0%nat = Some (VInt 0, r')
    ∧ r' !! "travel_time" = Some (VInt (10 + 2 * 5 + 2 * 7)).
Proof.
  apply (add_access_times_twice_counts_twice
           example_access_times example_travel_times 0 (VStr "a")
           (example_record 1 2 10 "walk") 5 7 10).
  - exact example_access_times_ok.
  - exact example_travel_times_ok.
  - reflexivity.
  - vm_compute. reflexivity.
  - compute_done.
  - compute_done.
  - vm_compute. reflexivity.
Defined.

Lemma add_access_times_overlapping_column_witness :
  add_access_times example_access_times example_travel_times_with_walking_time
  = None.
Proof.
  apply add_access_times_overlapping_column.
  - reflexivity.
  - compute_done.
Defined.

Lemma add_access_times_missing_column_witness :
  add_access_times example_access_times example_travel_times_without_to_id
  = None.
Proof.
  apply add_access_times_missing_column.
  - reflexivity.
  - right. left. compute_done.
Defined.

Lemma add_access_times_text_travel_time_witness :
  add_access_times example_access_times example_text_travel_times = None.
Proof.
  apply (add_access_times_text_travel_time
           example_access_times example_text_travel_times 0 (VInt 0)
           {[ "from_id" := VInt 1; "to_id" := VInt 2;
              "travel_time" := VStr "late" ]} "late").
  - exact example_access_times_ok.
  - unfold frame_wf. compute_done.
  - compute_done.
  - compute_done.
  - compute_done.
  - compute_done.
  - reflexivity.
  - vm_compute. reflexivity.
  - vm_compute. reflexivity.
Defined.

Lemma walking_time_of_bounds_witness :
  (0 ≤ walking_time_of (Some 90%Q))%Z
  ∧ (inject_Z (60 * (walking_time_of (Some 90%Q) - 1)) < 90)%Q
  ∧ (90 <= inject_Z (60 * walking_time_of (Some 90%Q)))%Q.
Proof.
  destruct (walking_time_of_bounds 90) as (H0 & H1 & H2 & _).
  - by vm_compute.
  - auto.
Defined.

Module MoreFlatFacts.
Import Flat FlatMore.

Lemma houses_ids_NoDup : NoDup (id <$> places houses).
Proof. compute_done. Qed.

Lemma setter_builds_access_table_witness :
  ∃ self' awt ods,
    set_origins_destinations (computer_of strip) houses = Some self'
    ∧ access_walking_times self' = Some awt
    ∧ _origins_destinations self' = Some ods
    ∧ access_table_ok awt.
Proof.
  destruct (setter_builds_access_table (computer_of strip) houses
              "EPSG:4326" "/data/town.osm.pbf")
    as (self' & awt & ods & E & Hawt & Hods & Hok & _).
  - reflexivity.
  - reflexivity.
  - exact houses_ids_NoDup.
  - exists self', awt, ods. auto.
Defined.

Lemma house_travel_times_ok : travel_times_ok example_house_travel_times.
Proof. repeat split; compute_done. Qed.

Lemma travel_time_between_places_witness :
  ∃ self' awt out r',
    set_origins_destinations (computer_of strip) houses = Some self'
    ∧ access_walking_times self' = Some awt
    ∧ add_access_times awt example_house_travel_times = Some out
    ∧ rows out !! 0%nat = Some (VInt 0, r')
    ∧ r' !! "travel_time" = Some (VInt 16).
Proof.
  destruct (travel_time_between_places (computer_of strip) houses
              "EPSG:4326" "/data/town.osm.pbf" example_house_travel_times
              0 (VInt 0)
              {[ "from_id" := VStr "a"; "to_id" := VStr "b";
                 "travel_time" := VInt 12 ]}
              (mkPlace flat_geometry (VStr "a") (Point 1 120))
              (mkPlace flat_geometry (VStr "b") (Point 2 90)) 12)
    as (self' & awt & out & r' & E & Hawt & Hout & Hrow & Htt).

  - reflexivity.
  - reflexivity.
  - exact houses_ids_NoDup.
  - exact house_travel_times_ok.
  - reflexivity.
  - apply list_elem_of_lookup. exists 0%nat. reflexivity.
  - apply list_elem_of_lookup. exists 1%nat. reflexivity.
  - vm_compute. reflexivity.
  - vm_compute. reflexivity.
  - vm_compute. reflexivity.
  - vm_compute. reflexivity.
  - exists self', awt, out, r'. split; [exact E|]. split; [exact Hawt|].
    split; [exact Hout|]. split; [exact Hrow|]. rewrite Htt. vm_compute. reflexivity.
Defined.

Lemma mixed_geometries_become_centroids_witness :
  ∃ self' ods,
    set_origins_destinations (computer_of two_squares) station = Some self'
    ∧ _origins_destinations self' = Some ods
    ∧ places ods
      = centroid_of (computer_of two_squares)
          <$> kept_places (computer_of two_squares) "EPSG:4326" station.
Proof.
  apply (mixed_geometries_become_centroids (computer_of two_squares) station
           "EPSG:4326" "/data/town.osm.pbf"
           (mkPlace flat_geometry (VInt 1)
              (MultiPoint [(1 # 2, 1 # 2); (7 # 2, 1 # 2)]))).
  - reflexivity.
  - reflexivity.
  - apply list_elem_of_lookup. exists 0%nat. reflexivity.
  - vm_compute. discriminate.
Defined.

Lemma set_origins_destinations_fails_witness :
  set_origins_destinations (computer_of strip) houses_without_crs = None.
Proof. apply set_origins_destinations_fails. left. reflexivity. Defined.

Lemma set_origins_destinations_frame_witness :
  ∃ self',
    set_origins_destinations (computer_of strip) houses = Some self'
    ∧ extent self' = strip
    ∧ osm_extract_file self' = Some "/data/town.osm.pbf".
Proof.
  pose proof (set_origins_destinations_table (computer_of strip) houses
                "EPSG:4326" "/data/town.osm.pbf" eq_refl eq_refl) as E.
  destruct (set_origins_destinations_frame _ _ _ E) as (_ & He & _ & Ho & _).
  eexists. split; [exact E|]. auto.
Defined.

Lemma osmium_ok_starts args files : is_Some (osmium_ok args files).
Proof. unfold osmium_ok. case_match; by eexists. Qed.

Lemma empty_disk_fresh d : fresh_directory d (fs empty_disk).
Proof. intros p _. apply lookup_empty. Qed.

Lemma disk_with_extract_fresh :
  fresh_directory "/tmp/tmpq7" (fs disk_with_extract).
Proof.
  intros p Hp. cbn [fs disk_with_extract].
  destruct (decide (p = "/data/town.osh_2023-06-15T00:00:00Z_8.osm.pbf"))
    as [->|Hne].
  - vm_compute in Hp. discriminate.
  - by rewrite lookup_singleton_ne.
Qed.

Lemma temporary_directory_is_removed_witness :
  fs first_run.2 !! "/tmp/tmpq7/extent.geojson" = None.
Proof.
  apply (@temporary_directory_is_removed _ (system_with osmium_ok 0)
           planner history empty_disk).
  vm_compute. reflexivity.
Defined.

Lemma existing_extract_leaves_files_witness :
  (@set_osm_history_file _ (system_with osmium_ok 0) planner history
     disk_with_extract).2 = disk_with_extract.
Proof.
  apply (@existing_extract_leaves_files _ (system_with osmium_ok 0)).
  - vm_compute. by eexists.
  - exact disk_with_extract_fresh.
Defined.

Lemma missing_extract_runs_both_steps_witness :
  length (invocations first_run.2) = 2%nat.
Proof.
  destruct (@missing_extract_runs_both_steps _ (system_with osmium_ok 0)
              planner history empty_disk) as [_ E].
  - apply lookup_empty.
  - apply empty_disk_fresh.
  - exact osmium_ok_starts.
  - unfold first_run. rewrite E. reflexivity.
Defined.

Lemma tool_that_cannot_start_raises_witness :
  (@set_osm_history_file _ (system_with osmium_missing 0) planner history
     empty_disk).1 = Raise OSError.
Proof.
  rewrite (@tool_that_cannot_start_raises _ (system_with osmium_missing 0)
             planner history empty_disk).
  - reflexivity.
  - apply lookup_empty.
  - apply empty_disk_fresh.
  - reflexivity.
Defined.

Lemma init_result :
  ∃ warnings c w',
    @__init__ _ road (system_with osmium_ok 0) _ history houses
      (mkDate 2023 6 15) [] None empty_disk
    = (Normal (Some (warnings, c)), w').
Proof.
  unfold __init__, derived_extent, gdf_to_crs.
  cbn [crs houses mbind option_bind fmap option_fmap option_map].
  unfold mbind, M_bind, mret, M_ret.
  destruct (@set_osm_history_file_returns _ (system_with osmium_ok 0)
              (mkComputer _ (mkDate 2023 6 15)
                 (unary_union
                    ((λ p, to_crs (_good_enough_crs_of None) WORKING_CRS
                             (buffer (geometry p) EXTENT_BUFFER))
                       <$> places (mkGDF _ (Some (_good_enough_crs_of None))
                            ((λ p, mkPlace _ (id p)
                                (to_crs "EPSG:4326" (_good_enough_crs_of None)
                                   (geometry p))) <$> places houses))))
                 [] None None None None) history empty_disk osmium_ok_starts)
    as (c0 & w' & E0).
  rewrite E0. apply set_osm_history_file_fields in E0. subst c0.
  erewrite set_origins_destinations_table; [|reflexivity|reflexivity].
  by eexists _, _, _.
Qed.

Lemma init_extent_witness :
  ∃ warnings c w',
    @__init__ _ road (system_with osmium_ok 0) _ history houses
      (mkDate 2023 6 15) [] None empty_disk
    = (Normal (Some (warnings, c)), w')
    ∧ warnings = [NO_EXTENT_WARNING] ∧ date c = mkDate 2023 6 15.
Proof.
  destruct init_result as (warnings & c & w' & E).
  destruct (init_extent _ _ _ _ _ _ _ _ _ E) as (Hd & _ & Hw & _).
  exists warnings, c, w'. auto.
Defined.

Lemma init_assigns_extract_before_places_witness :
  ∃ warnings c w',
    @__init__ _ road (system_with osmium_ok 0) _ history houses
      (mkDate 2023 6 15) [] None empty_disk
    = (Normal (Some (warnings, c)), w')
    ∧ osm_extract_file c
      = Some (@osm_extract_filename_of _ (system_with osmium_ok 0) c history)
    ∧ is_Some (access_walking_times c)
    ∧ ∃ c0, @set_osm_history_file _ (system_with osmium_ok 0)
              (mkComputer _ (mkDate 2023 6 15) (extent c) [] None None None
                 None) history empty_disk
            = (Normal c0, w').
Proof.
  destruct init_result as (warnings & c & w' & E).
  destruct (init_assigns_extract_before_places _ _ _ _ _ _ _ _ _ E)
    as (src & c0 & _ & E0 & _ & _ & _ & Hosm & Hawt & _).
  exists warnings, c, w'. split; [exact E|]. split; [exact Hosm|].
  split; [rewrite Hawt; by eexists|]. by exists c0.
Defined.

Lemma init_without_reference_frame_witness :
  @__init__ _ road (system_with osmium_ok 0) _ history houses_without_crs
    (mkDate 2023 6 15) [] None empty_disk
  = (Normal None, empty_disk).
Proof.
  apply (@init_without_reference_frame _ road (system_with osmium_ok 0) _
           history houses_without_crs (mkDate 2023 6 15) [] None empty_disk).
  reflexivity.
Defined.

End MoreFlatFacts.
